(** * marmotedu-sdk-go: a shallow embedding of the REST client SDK

    The development follows the layout of the Go repository:

    - [GoLib]     the functions of the Go standard library that the SDK calls
                  and that are pure string functions ([path.Join],
                  [filepath.Base], [strings.Contains], [base64], ...);
    - [Rest]      package [rest]: [Config], [TLSConfigFor], [RESTClientFor],
                  the [Request] builder, [URL], [Do] and [Result]; its
                  record [World] gathers what lies outside the repository
                  and cannot be computed (the file system, the token signer,
                  the HTTP round trip, [fmt]'s reflective printer);
    - [Clientcmd] package [tools/clientcmd]: [validateAuthInfo], [Load],
                  [LoadFromFile];
    - [Apiserver] the typed clients for users, secrets and policies, and the
                  authorization call;
    - [Chain]     sequences of builder calls;
    - [Demo]      a concrete world and concrete inputs, on which the
                  definitions run.

    The facts proved about them follow, by subject.

    Strings are Go strings seen as byte sequences; byte slices are
    [list byte]; [time.Duration] and [int] are [Z]; maps with string keys are
    [gmap string _]. *)

From Stdlib Require Import ZArith Ascii String List Bool Lia.
From stdpp Require Import base option list gmap strings.

Local Open Scope string_scope.
Local Open Scope Z_scope.

(** ** The Go standard library, as far as the SDK uses it *)

Module GoLib.

(** A Go byte slice. [nil] and the empty slice are both [[]]: the code only
    ever takes [len] of them. *)
Definition bytes := list Byte.byte.

(** [[]byte(s)] and [string(b)]. *)
Definition bytes_of_string (s : string) : bytes := list_byte_of_string s.
Definition string_of_bytes (b : bytes) : string := string_of_list_byte b.

(** [len(s)] of a string, as a [Z]. *)
Definition len (s : string) : Z := Z.of_nat (String.length s).

(** [s == ""], as the code tests it through [len(s) == 0]. *)
Definition is_empty (s : string) : bool :=
  match s with "" => true | _ => false end.

Definition nonempty (s : string) : bool := negb (is_empty s).

(** [strings.HasPrefix]. *)
Fixpoint HasPrefix (s p : string) : bool :=
  match p, s with
  | "", _ => true
  | String a p', String b s' => if Ascii.eqb a b then HasPrefix s' p' else false
  | String _ _, "" => false
  end.

(** [strings.Contains]. *)
Fixpoint Contains (s sub : string) : bool :=
  HasPrefix s sub ||
  match s with
  | "" => false
  | String _ s' => Contains s' sub
  end.

(** [strings.HasSuffix]. *)
Fixpoint HasSuffix (s suf : string) : bool :=
  String.eqb s suf ||
  match s with
  | "" => false
  | String _ s' => HasSuffix s' suf
  end.

(** An ASCII letter [A] to [Z] in lower case, any other byte as it is. *)
Definition lower_ascii (c : ascii) : ascii :=
  let n := nat_of_ascii c in
  if andb (Nat.leb 65 n) (Nat.leb n 90) then ascii_of_nat (n + 32) else c.

(** Every byte of [s] is below [utf8.RuneSelf], 0x80. *)
Fixpoint all_ascii (s : string) : bool :=
  match s with
  | "" => true
  | String c s' => Nat.ltb (nat_of_ascii c) 128 && all_ascii s'
  end.

Fixpoint lower_ascii_bytes (s : string) : string :=
  match s with
  | "" => ""
  | String c s' => String (lower_ascii c) (lower_ascii_bytes s')
  end.

(** [strings.ToLower]. It is [strings.Map(unicode.ToLower, s)]: on a
    string of ASCII bytes that maps the letters [A] to [Z] to lower case
    and nothing else; on any other string it decodes UTF-8, replaces the
    bytes that are no valid encoding and consults the Unicode tables of
    the Go release, which is left to the parameter [mapped]. *)
Definition ToLower (mapped : string -> string) (s : string) : string :=
  if all_ascii s then lower_ascii_bytes s else mapped s.

(** [strings.Join]. *)
Fixpoint Join (elems : list string) (sep : string) : string :=
  match elems with
  | [] => ""
  | [e] => e
  | e :: rest => e ++ sep ++ Join rest sep
  end.

(** [strings.Split(s, "/")]: the components between slashes. *)
Fixpoint split_slash (s : string) : list string :=
  match s with
  | "" => [""]
  | String c s' =>
      if Ascii.eqb c "/" then "" :: split_slash s'
      else match split_slash s' with
           | [] => [String c ""]
           | e :: rest => String c e :: rest
           end
  end.

(** One element of the path handed to [path.Clean]; [stack] holds the
    elements kept so far, last first. *)
Definition clean_step (rooted : bool) (stack : list string) (e : string)
  : list string :=
  if String.eqb e "" then stack
  else if String.eqb e "." then stack
  else if String.eqb e ".." then
    match stack with
    | top :: rest =>
        if String.eqb top ".." then ".." :: stack else rest
    | [] => if rooted then [] else [".."]
    end
  else e :: stack.

(** [path.Clean]. *)
Definition Clean (p : string) : string :=
  match p with
  | "" => "."
  | String c _ =>
      let rooted := Ascii.eqb c "/" in
      let kept := rev (fold_left (clean_step rooted) (split_slash p) []) in
      if rooted then "/" ++ Join kept "/"
      else match kept with
           | [] => "."
           | _ => Join kept "/"
           end
  end.

(** [path.Join]: empty leading elements are skipped, the rest is joined
    with slashes and cleaned; no non-empty element gives [""]. *)
Fixpoint path_Join (elems : list string) : string :=
  match elems with
  | [] => ""
  | e :: rest =>
      if is_empty e then path_Join rest else Clean (Join elems "/")
  end.

(** Strip the trailing slashes of a path ([filepath.Base], first loop). *)
Fixpoint strip_trailing_slashes (s : string) : string :=
  match s with
  | "" => ""
  | String c s' =>
      match strip_trailing_slashes s' with
      | "" => if Ascii.eqb c "/" then "" else String c ""
      | t => String c t
      end
  end.

(** The part of [s] after its last slash ([filepath.Base], second loop). *)
Definition after_last_slash (s : string) : string :=
  List.last (split_slash s) "".

(** [filepath.Base] on a system whose separator is the slash. *)
Definition Base (p : string) : string :=
  if is_empty p then "."
  else
    let q := after_last_slash (strip_trailing_slashes p) in
    if is_empty q then "/" else q.

(** [strings.SplitN(s, "-", 2)[0]]: what precedes the first dash, or all of
    [s] when it has none. *)
Fixpoint before_dash (s : string) : string :=
  match s with
  | "" => ""
  | String c s' => if Ascii.eqb c "-" then "" else String c (before_dash s')
  end.

(** [s[:n]] for [n <= len(s)]. *)
Fixpoint take (n : nat) (s : string) : string :=
  match n, s with
  | S n', String c s' => String c (take n' s')
  | _, _ => ""
  end.

(** *** [encoding/base64] *)

Definition b64_alphabet : string :=
  "ABCDEFGHIJKLMNOPQRSTUVWXYZabcdefghijklmnopqrstuvwxyz0123456789+/".

Definition b64_char (n : N) : ascii :=
  match String.get (N.to_nat n) b64_alphabet with
  | Some c => c
  | None => "="%char
  end.

(** [base64.StdEncoding.EncodeToString]: three bytes give four characters,
    a last group of one or two bytes is padded with ['=']. *)
Fixpoint b64_encode (l : bytes) : string :=
  match l with
  | [] => ""
  | [a] =>
      let x := Byte.to_N a in
      String (b64_char (x / 4))
        (String (b64_char ((x mod 4) * 16)) "==")
  | [a; b] =>
      let x := Byte.to_N a in
      let y := Byte.to_N b in
      String (b64_char (x / 4))
        (String (b64_char ((x mod 4) * 16 + y / 16))
           (String (b64_char ((y mod 16) * 4)) "="))
  | a :: b :: c :: rest =>
      let x := Byte.to_N a in
      let y := Byte.to_N b in
      let z := Byte.to_N c in
      String (b64_char (x / 4))
        (String (b64_char ((x mod 4) * 16 + y / 16))
           (String (b64_char ((y mod 16) * 4 + z / 64))
              (String (b64_char (z mod 64)) (b64_encode rest))))
  end%N.

Definition EncodeToString (b : bytes) : string := b64_encode b.

(** *** [time.Duration] *)

(** A duration is an [int64] count of nanoseconds. *)
Definition Duration := Z.
Definition Microsecond : Duration := 1000.
Definition Millisecond : Duration := 1000000.
Definition Second : Duration := 1000000000.

Definition digit_char (d : Z) : ascii := ascii_of_nat (48 + Z.to_nat d).

(** [fmtInt]: the decimal digits of [v]; the loop runs once per digit and a
    [uint64] has at most twenty. *)
Fixpoint fmtInt_loop (fuel : nat) (v : Z) (acc : string) : string :=
  match fuel with
  | O => acc
  | S fuel' =>
      if v >? 0
      then fmtInt_loop fuel' (v / 10) (String (digit_char (v mod 10)) acc)
      else acc
  end.

Definition fmtInt (v : Z) (acc : string) : string :=
  if v =? 0 then String "0" acc else fmtInt_loop 20 v acc.

(** [fmtFrac]: the low [prec] digits of [v] as a fraction in front of
    [acc], without trailing zeros and without the point when all of them
    are zero; the second component is [v / 10^prec]. *)
Fixpoint fmtFrac_loop (prec : nat) (v : Z) (print : bool) (acc : string)
  : string * Z * bool :=
  match prec with
  | O => (acc, v, print)
  | S prec' =>
      let digit := v mod 10 in
      let print' := print || negb (digit =? 0) in
      fmtFrac_loop prec' (v / 10) print'
        (if print' then String (digit_char digit) acc else acc)
  end.

Definition fmtFrac (prec : nat) (v : Z) (acc : string) : string * Z :=
  match fmtFrac_loop prec v false acc with
  | (acc', v', print) => (if print then String "." acc' else acc', v')
  end.

(** The two bytes of the micro sign in UTF-8. *)
Definition micro_sign : string :=
  String (ascii_of_nat 194) (String (ascii_of_nat 181) "").

(** [Duration.String]. *)
Definition Duration_String (d : Duration) : string :=
  let neg := d <? 0 in
  let u := Z.abs d in
  let body :=
    if u <? Second then
      if u =? 0 then "0s"
      else
        let '(prec, unit) :=
          if u <? Microsecond then (0%nat, "ns")
          else if u <? Millisecond then (3%nat, micro_sign ++ "s")
          else (6%nat, "ms") in
        let '(frac, u') := fmtFrac prec u unit in
        fmtInt u' frac
    else
      let '(frac, u1) := fmtFrac 9 u "s" in
      let secs := fmtInt (u1 mod 60) frac in
      let u2 := u1 / 60 in
      if u2 >? 0 then
        let mins := fmtInt (u2 mod 60) (String "m" secs) in
        let u3 := u2 / 60 in
        if u3 >? 0 then fmtInt u3 (String "h" mins) else mins
      else secs in
  if u =? 0 then body else if neg then String "-" body else body.

(** *** [net/url]: query values *)

(** [url.Values], a [map[string][]string]. *)
Abbreviation Values := (gmap string (list string)).

Definition Values_Get (m : Values) (k : string) : string :=
  match m !! k with
  | Some (v :: _) => v
  | _ => ""
  end.

Definition Values_Set (k v : string) (m : Values) : Values := <[k := [v]]> m.

Definition Values_Add (k v : string) (m : Values) : Values :=
  <[k := (default [] (m !! k) ++ [v])%list]> m.

Definition Values_Del (k : string) (m : Values) : Values := delete k m.

Definition hex_digit (n : nat) : ascii :=
  match String.get n "0123456789ABCDEF" with
  | Some c => c
  | None => "0"%char
  end.

(** [shouldEscape] in the mode [encodeQueryComponent]. *)
Definition shouldEscape (c : ascii) : bool :=
  let n := nat_of_ascii c in
  if (Nat.leb 97 n && Nat.leb n 122) || (Nat.leb 65 n && Nat.leb n 90)
     || (Nat.leb 48 n && Nat.leb n 57)
  then false
  else if Ascii.eqb c "-" || Ascii.eqb c "_" || Ascii.eqb c "."
          || Ascii.eqb c "~"
  then false
  else true.

(** [url.QueryEscape]. *)
Fixpoint QueryEscape (s : string) : string :=
  match s with
  | "" => ""
  | String c s' =>
      if Ascii.eqb c " " then String "+" (QueryEscape s')
      else if shouldEscape c then
        let n := nat_of_ascii c in
        String "%" (String (hex_digit (n / 16))
                      (String (hex_digit (n mod 16)) (QueryEscape s')))
      else String c (QueryEscape s')
  end.

(** *** [net/textproto]: header keys *)

(** [validHeaderFieldByte]: the token characters of RFC 7230. *)
Definition validHeaderFieldByte (c : ascii) : bool :=
  let n := nat_of_ascii c in
  (Nat.leb 97 n && Nat.leb n 122) || (Nat.leb 65 n && Nat.leb n 90)
  || (Nat.leb 48 n && Nat.leb n 57)
  || Contains "!#$%&'*+-.^_`|~" (String c "").

Definition upper_ascii (c : ascii) : ascii :=
  let n := nat_of_ascii c in
  if andb (Nat.leb 97 n) (Nat.leb n 122) then ascii_of_nat (n - 32) else c.

Fixpoint all_valid_header_bytes (s : string) : bool :=
  match s with
  | "" => true
  | String c s' => validHeaderFieldByte c && all_valid_header_bytes s'
  end.

(** The rewriting loop of [canonicalMIMEHeaderKey]: upper case at the
    start and after a dash, lower case elsewhere. *)
Fixpoint canonical_loop (upper : bool) (s : string) : string :=
  match s with
  | "" => ""
  | String c s' =>
      let c' := if upper then upper_ascii c else lower_ascii c in
      String c' (canonical_loop (Ascii.eqb c' "-") s')
  end.

(** [textproto.CanonicalMIMEHeaderKey]: a key with a byte that is not a
    token character is returned unchanged. *)
Definition CanonicalMIMEHeaderKey (s : string) : string :=
  if all_valid_header_bytes s then canonical_loop true s else s.

(** [sort.Strings], by insertion. *)
Fixpoint insert_sorted (k : string) (l : list string) : list string :=
  match l with
  | [] => [k]
  | x :: l' => if String.leb k x then k :: l else x :: insert_sorted k l'
  end.

Definition sort_strings (l : list string) : list string :=
  fold_right insert_sorted [] l.

(** [Values.Encode]: the pairs [key=value], escaped, by sorted key, joined
    with ['&']. *)
Definition Values_Encode (m : Values) : string :=
  let keys := sort_strings (map fst (map_to_list m)) in
  Join
    (flat_map
       (fun k => map (fun v => QueryEscape k ++ "=" ++ QueryEscape v)
                     (default [] (m !! k)))
       keys)
    "&".

End GoLib.

(** ** Results, errors and Go values *)

(** A call either returns or panics (a nil pointer is dereferenced). *)
Inductive outcome (A : Type) : Type :=
| Returned (a : A)
| Panicked.
Arguments Returned {A} a.
Arguments Panicked {A}.

(** The errors the SDK builds itself, one constructor per [fmt.Errorf] or
    [errors.New] site, and [ErrForeign] for an error handed over by a
    library. *)
Inductive error : Type :=
| ErrAuthMethods
| ErrResourceSet (old new : string)
| ErrInvalidResource (name : string) (msgs : list string)
| ErrSubresourceSet (old new : string)
| ErrInvalidSubresource (name : string) (msgs : list string)
| ErrNameEmpty
| ErrNameSet (old new : string)
| ErrInvalidName (name : string) (msgs : list string)
| ErrNoGroupVersion
| ErrNoNegotiator
| ErrHostNotURL (host : string)
| ErrCAWithInsecure
| ErrNoSerializer
| ErrNew (msg : string)
| ErrManyAuthMethods (methods : list string)
| ErrClientCertBoth
| ErrClientKeyBoth
| ErrClientKeyMissing
| ErrReadClientCert (file : string) (cause : error)
| ErrReadClientKey (file : string) (cause : error)
| ErrForeign (msg : string).

(** A Go value passed as [interface{}] (a request body, an options struct,
    a decoding target). The SDK inspects only whether its [reflect.Kind] is
    [Struct]; the content is opaque to it. *)
Record Obj : Type := {
  obj_is_struct : bool;
  obj_data : string
}.

(** ** Package [rest] *)

Module Rest.
Import GoLib.

(** [scheme.GroupVersion]. *)
Record GroupVersion : Type := {
  Group : string;
  Version : string
}.

(** [runtime.Decoder]: [Decode(data, &v)] fills the target or fails. *)
Definition Decoder : Type := bytes -> Obj -> Obj * option error.

(** [runtime.ClientNegotiator]: [Decoder()] returns a decoder and an
    error. *)
Record Negotiator : Type := {
  neg_Decoder : option Decoder * option error
}.

(** [TLSClientConfig]. *)
Record TLSClientConfig : Type := {
  Insecure : bool;
  ServerName : string;
  CertFile : string;
  KeyFile : string;
  CAFile : string;
  CertData : bytes;
  KeyData : bytes;
  CAData : bytes;
  NextProtos : list string
}.

(** [ContentConfig]. *)
Record ContentConfig : Type := {
  ServiceName : string;
  AcceptContentTypes : string;
  ContentType : string;
  cfgGroupVersion : option GroupVersion;
  cfgNegotiator : option Negotiator
}.

(** [Config]. The embedded structs are the fields [content] and [tls]. *)
Record Config : Type := {
  Host : string;
  APIPath : string;
  content : ContentConfig;
  Username : string;
  Password : string;
  SecretID : string;
  SecretKey : string;
  BearerToken : string;
  BearerTokenFile : string;
  tls : TLSClientConfig;
  UserAgent : string;
  cfgTimeout : Duration;
  MaxRetries : Z;
  RetryInterval : Duration
}.

(** [ClientContentConfig]. *)
Record ClientContentConfig : Type := {
  ccUsername : string;
  ccPassword : string;
  ccSecretID : string;
  ccSecretKey : string;
  ccBearerToken : string;
  ccBearerTokenFile : string;
  ccTLS : TLSClientConfig;
  ccAcceptContentTypes : string;
  ccContentType : string;
  ccGroupVersion : GroupVersion;
  ccNegotiator : option Negotiator
}.

(** [url.URL], the fields the SDK reads or writes. *)
Record URL_t : Type := {
  Scheme : string;
  UHost : string;
  Path : string;
  RawQuery : string;
  Fragment : string
}.

Definition empty_URL : URL_t :=
  {| Scheme := ""; UHost := ""; Path := ""; RawQuery := ""; Fragment := "" |}.

(** [tls.Certificate] as [tls.X509KeyPair] builds it, and [x509.CertPool]
    as [AppendCertsFromPEM] fills it. *)
Record Certificate : Type := {
  certPEM : bytes;
  keyPEM : bytes
}.

Definition CertPool : Type := bytes.

(** [tls.Config], the fields [TLSConfigFor] sets. [GetClientCertificate]
    is the certificate the callback returns. *)
Record tls_Config : Type := {
  MinVersion : Z;
  InsecureSkipVerify : bool;
  tlsServerName : string;
  tlsNextProtos : list string;
  RootCAs : option CertPool;
  GetClientCertificate : option Certificate
}.

Definition VersionTLS12 : Z := 0x0303.
Definition StatusOK : Z := 200.
Definition StatusInternalServerError : Z := 500.

(** [http.Header]. *)
Abbreviation Header := (gmap string (list string)).

(** The retry policy held by the HTTP agent. *)
Record Retryable_t : Type := {
  RetryableStatus : list Z;
  RetryerTime : Duration;
  RetryerCount : Z;
  Attempt : Z;
  Enable : bool
}.

(** Modelled from the spec: the HTTP agent ([gorequest.SuperAgent], a fork
    kept under [third_party/] of the repository) is not among the sources.
    The spec says that retries are a single configurable policy delegated
    to the underlying HTTP agent; the agent is modelled as the record of
    what its setters were given: [TLSClientConfig], [Timeout], [Retry],
    [Query], [CustomMethod], [Send] and the fields [Header] and
    [DoNotClearSuperAgent] that the SDK assigns. *)
Record SuperAgent : Type := {
  agTLS : option tls_Config;
  agTimeout : Duration;
  agRetryable : Retryable_t;
  DoNotClearSuperAgent : bool;
  agHeader : Header;
  agQuery : list Obj;
  agMethod : string;
  agUrl : string;
  agSend : list (option Obj);
  agDeadline : option Duration
}.

(** [RESTClient]. *)
Record RESTClient : Type := {
  base : option URL_t;
  group : string;
  versionedAPIPath : string;
  rcContent : ClientContentConfig;
  Client : SuperAgent
}.

(** [Request]. The client a request points to is kept in the request: the
    only write through that pointer is [VersionedParams], which hands the
    options to the agent. *)
Record Request : Type := {
  c : RESTClient;
  timeout : Duration;
  verb : string;
  pathPrefix : string;
  subpath : string;
  params : Values;
  headers : Header;
  resource : string;
  resourceName : string;
  subresource : string;
  err : option error;
  body : option Obj
}.

(** [gorequest.Response], of which the SDK reads the status code. *)
Record Response : Type := {
  StatusCode : Z
}.

(** [Result]. *)
Record Result : Type := {
  response : Response;
  rerr : option error;
  rbody : bytes;
  decoder : option Decoder
}.

(** What lies outside the repository: libraries whose results cannot be
    computed from their arguments alone, the file system, the build
    stamps and the network. *)
Record World : Type := {
  (** [auth.Sign(secretID, secretKey, iss, aud)] *)
  Sign : string -> string -> string -> string -> string;
  (** [url.Parse] *)
  url_Parse : string -> URL_t * option error;
  (** [URL.Query()] of a parsed URL *)
  url_Query : URL_t -> Values;
  (** [URL.String()] *)
  url_String : URL_t -> string;
  (** [strings.Map(unicode.ToLower, s)], which is [strings.ToLower(s)],
      for a string that is not made of ASCII bytes only *)
  Map_unicode_ToLower : string -> string;
  (** [ioutil.ReadFile] *)
  ReadFile : string -> bytes * option error;
  (** [base64.StdEncoding.DecodeString] *)
  DecodeString : string -> bytes * option error;
  (** [tls.X509KeyPair] *)
  X509KeyPair : bytes -> bytes -> Certificate * option error;
  (** [fmt.Sprintf("%#v", _)] on a [*Config] and on a [TLSClientConfig]
      stripped of their methods *)
  sprintf_Config : Config -> string;
  sprintf_TLS : TLSClientConfig -> string;
  (** [os.Args[0]], [version.Get()], [runtime.GOOS], [runtime.GOARCH] *)
  Args0 : string;
  GitVersion : string;
  GitCommit : string;
  GOOS : string;
  GOARCH : string;
  (** the agent's [EndBytes]: the round trip of the prepared request; the
      errors are given by their [Error()] messages *)
  EndBytes : SuperAgent -> Response * bytes * list string
}.

Definition nonempty_bytes (b : bytes) : bool :=
  match b with [] => false | _ :: _ => true end.

(** *** config.go: transport security *)

(** [TLSClientConfig.HasCA]. *)
Definition HasCA (t : TLSClientConfig) : bool :=
  nonempty_bytes (CAData t) || nonempty (CAFile t).

(** [TLSClientConfig.HasCertAuth]. *)
Definition HasCertAuth (t : TLSClientConfig) : bool :=
  (nonempty_bytes (CertData t) || nonempty (CertFile t))
  && (nonempty_bytes (KeyData t) || nonempty (KeyFile t)).

Definition with_tls (cfg : Config) (t : TLSClientConfig) : Config :=
  {| Host := Host cfg; APIPath := APIPath cfg; content := content cfg;
     Username := Username cfg; Password := Password cfg;
     SecretID := SecretID cfg; SecretKey := SecretKey cfg;
     BearerToken := BearerToken cfg;
     BearerTokenFile := BearerTokenFile cfg;
     tls := t; UserAgent := UserAgent cfg; cfgTimeout := cfgTimeout cfg;
     MaxRetries := MaxRetries cfg; RetryInterval := RetryInterval cfg |}.

Definition with_CAData (t : TLSClientConfig) (d : bytes) : TLSClientConfig :=
  {| Insecure := Insecure t; ServerName := ServerName t;
     CertFile := CertFile t; KeyFile := KeyFile t; CAFile := CAFile t;
     CertData := CertData t; KeyData := KeyData t; CAData := d;
     NextProtos := NextProtos t |}.

Definition with_CertData (t : TLSClientConfig) (d : bytes) : TLSClientConfig :=
  {| Insecure := Insecure t; ServerName := ServerName t;
     CertFile := CertFile t; KeyFile := KeyFile t; CAFile := CAFile t;
     CertData := d; KeyData := KeyData t; CAData := CAData t;
     NextProtos := NextProtos t |}.

Definition with_KeyData (t : TLSClientConfig) (d : bytes) : TLSClientConfig :=
  {| Insecure := Insecure t; ServerName := ServerName t;
     CertFile := CertFile t; KeyFile := KeyFile t; CAFile := CAFile t;
     CertData := CertData t; KeyData := d; CAData := CAData t;
     NextProtos := NextProtos t |}.

(** The configuration [cfg] with other values in its three secret
    fields; used to compare what is printed for two configurations that
    differ in their secrets only. *)
Definition with_credentials (cfg : Config) (password token key : string)
  : Config :=
  {| Host := Host cfg; APIPath := APIPath cfg; content := content cfg;
     Username := Username cfg; Password := password;
     SecretID := SecretID cfg; SecretKey := key;
     BearerToken := token;
     BearerTokenFile := BearerTokenFile cfg;
     tls := tls cfg; UserAgent := UserAgent cfg;
     cfgTimeout := cfgTimeout cfg;
     MaxRetries := MaxRetries cfg; RetryInterval := RetryInterval cfg |}.

Section WithWorld.
Variable w : World.

(** [dataFromSliceOrFile]. *)
Definition dataFromSliceOrFile (data : bytes) (file : string)
  : bytes * option error :=
  if nonempty_bytes data then DecodeString w (string_of_bytes data)
  else if nonempty file then
    match ReadFile w file with
    | (_, Some e) => ([], Some e)
    | (fileData, None) => (fileData, None)
    end
  else ([], None).

(** [LoadTLSFiles]: the configuration is written through the pointer,
    field by field, up to the first error. *)
Definition LoadTLSFiles (cfg : Config) : Config * option error :=
  let '(ca, e1) := dataFromSliceOrFile (CAData (tls cfg)) (CAFile (tls cfg)) in
  let c1 := with_tls cfg (with_CAData (tls cfg) ca) in
  match e1 with
  | Some e => (c1, Some e)
  | None =>
      let '(cert, e2) :=
        dataFromSliceOrFile (CertData (tls c1)) (CertFile (tls c1)) in
      let c2 := with_tls c1 (with_CertData (tls c1) cert) in
      match e2 with
      | Some e => (c2, Some e)
      | None =>
          let '(key, e3) :=
            dataFromSliceOrFile (KeyData (tls c2)) (KeyFile (tls c2)) in
          let c3 := with_tls c2 (with_KeyData (tls c2) key) in
          (c3, e3)
      end
  end.

(** [rootCertPool]. *)
Definition rootCertPool (caData : bytes) : option CertPool :=
  if nonempty_bytes caData then Some caData else None.

(** [TLSConfigFor]: the configuration as the call leaves it, and the
    pair the call returns. *)
Definition TLSConfigFor (cfg : Config)
  : Config * (option tls_Config * option error) :=
  if negb (HasCA (tls cfg) || HasCertAuth (tls cfg) || Insecure (tls cfg)
           || nonempty (ServerName (tls cfg)))
  then (cfg, (None, None))
  else if HasCA (tls cfg) && Insecure (tls cfg)
  then (cfg, (None, Some ErrCAWithInsecure))
  else
    match LoadTLSFiles cfg with
    | (c1, Some e) => (c1, (None, Some e))
    | (c1, None) =>
        let t := tls c1 in
        let roots := if HasCA t then rootCertPool (CAData t) else None in
        let mk (cert : option Certificate) : tls_Config :=
          {| MinVersion := VersionTLS12;
             InsecureSkipVerify := Insecure t;
             tlsServerName := ServerName t;
             tlsNextProtos := NextProtos t;
             RootCAs := roots;
             GetClientCertificate := cert |} in
        if HasCertAuth t then
          match X509KeyPair w (CertData t) (KeyData t) with
          | (_, Some e) => (c1, (None, Some e))
          | (cert, None) => (c1, (Some (mk (Some cert)), None))
          end
        else (c1, (Some (mk None), None))
    end.

(** *** url_utils.go *)

(** [DefaultServerURL]. *)
Definition DefaultServerURL (host apiPath : string) (gv : GroupVersion)
  (defaultTLS : bool) : option URL_t * string * option error :=
  let versioned := path_Join ["/"; apiPath; Version gv] in
  let '(hostURL, e) := url_Parse w host in
  if bool_decide (e <> None) || is_empty (Scheme hostURL)
     || is_empty (UHost hostURL)
  then
    let requestURL :=
      if defaultTLS then "https://" ++ Group gv ++ ".marmotedu.com:8443"
      else "http://" ++ Group gv ++ ".marmotedu.com:8080" in
    match url_Parse w requestURL with
    | (_, Some e') => (None, "", Some e')
    | (hostURL', None) =>
        if nonempty (Path hostURL') && negb (String.eqb (Path hostURL') "/")
        then (None, "", Some (ErrHostNotURL host))
        else (Some hostURL', versioned, None)
    end
  else (Some hostURL, versioned, None).

(** [defaultServerURLFor]. *)
Definition defaultServerURLFor (cfg : Config)
  : option URL_t * string * option error :=
  let t := tls cfg in
  let hasCA := nonempty (CAFile t) || nonempty_bytes (CAData t) in
  let hasCert := nonempty (CertFile t) || nonempty_bytes (CertData t) in
  let defaultTLS := hasCA || hasCert || Insecure t in
  match cfgGroupVersion (content cfg) with
  | Some gv => DefaultServerURL (Host cfg) (APIPath cfg) gv defaultTLS
  | None =>
      DefaultServerURL (Host cfg) (APIPath cfg)
        {| Group := ""; Version := "" |} defaultTLS
  end.

(** *** The HTTP agent *)

(** [gorequest.New()]. *)
Definition gorequest_New : SuperAgent :=
  {| agTLS := None; agTimeout := 0;
     agRetryable := {| RetryableStatus := []; RetryerTime := 0;
                       RetryerCount := 0; Attempt := 0; Enable := false |};
     DoNotClearSuperAgent := false; agHeader := ∅; agQuery := [];
     agMethod := ""; agUrl := ""; agSend := []; agDeadline := None |}.

(** [SuperAgent.TLSClientConfig]. *)
Definition ag_TLSClientConfig (t : option tls_Config) (a : SuperAgent)
  : SuperAgent :=
  {| agTLS := t; agTimeout := agTimeout a; agRetryable := agRetryable a;
     DoNotClearSuperAgent := DoNotClearSuperAgent a;
     agHeader := agHeader a; agQuery := agQuery a; agMethod := agMethod a;
     agUrl := agUrl a; agSend := agSend a; agDeadline := agDeadline a |}.

(** [SuperAgent.Timeout]. *)
Definition ag_Timeout (d : Duration) (a : SuperAgent) : SuperAgent :=
  {| agTLS := agTLS a; agTimeout := d; agRetryable := agRetryable a;
     DoNotClearSuperAgent := DoNotClearSuperAgent a;
     agHeader := agHeader a; agQuery := agQuery a; agMethod := agMethod a;
     agUrl := agUrl a; agSend := agSend a; agDeadline := agDeadline a |}.

(** [SuperAgent.Retry(retryerCount, retryerTime, statusCode...)]. *)
Definition ag_Retry (count : Z) (time : Duration) (statusCode : list Z)
  (a : SuperAgent) : SuperAgent :=
  {| agTLS := agTLS a; agTimeout := agTimeout a;
     agRetryable := {| RetryableStatus := statusCode; RetryerTime := time;
                       RetryerCount := count; Attempt := 0;
                       Enable := true |};
     DoNotClearSuperAgent := DoNotClearSuperAgent a;
     agHeader := agHeader a; agQuery := agQuery a; agMethod := agMethod a;
     agUrl := agUrl a; agSend := agSend a; agDeadline := agDeadline a |}.

(** The assignment [client.DoNotClearSuperAgent = b]. *)
Definition ag_set_DoNotClear (b : bool) (a : SuperAgent) : SuperAgent :=
  {| agTLS := agTLS a; agTimeout := agTimeout a;
     agRetryable := agRetryable a; DoNotClearSuperAgent := b;
     agHeader := agHeader a; agQuery := agQuery a; agMethod := agMethod a;
     agUrl := agUrl a; agSend := agSend a; agDeadline := agDeadline a |}.

(** [SuperAgent.Query]. *)
Definition ag_Query (v : Obj) (a : SuperAgent) : SuperAgent :=
  {| agTLS := agTLS a; agTimeout := agTimeout a;
     agRetryable := agRetryable a;
     DoNotClearSuperAgent := DoNotClearSuperAgent a;
     agHeader := agHeader a; agQuery := (agQuery a ++ [v])%list;
     agMethod := agMethod a; agUrl := agUrl a; agSend := agSend a;
     agDeadline := agDeadline a |}.

(** What [Do] does to the agent before the round trip: the assignment of
    [Header], [WithContext], [CustomMethod] and [Send]. *)
Definition ag_prepare (h : Header) (deadline : option Duration)
  (method url : string) (data : option Obj) (a : SuperAgent) : SuperAgent :=
  {| agTLS := agTLS a; agTimeout := agTimeout a;
     agRetryable := agRetryable a;
     DoNotClearSuperAgent := DoNotClearSuperAgent a;
     agHeader := h; agQuery := agQuery a; agMethod := method;
     agUrl := url; agSend := (agSend a ++ [data])%list;
     agDeadline := deadline |}.

(** *** client.go *)

(** [ClientContentConfig.HasBasicAuth]. *)
Definition HasBasicAuth (cc : ClientContentConfig) : bool :=
  nonempty (ccUsername cc).

(** [ClientContentConfig.HasTokenAuth]. *)
Definition HasTokenAuth (cc : ClientContentConfig) : bool :=
  nonempty (ccBearerToken cc) || nonempty (ccBearerTokenFile cc).

(** [ClientContentConfig.HasKeyAuth]. *)
Definition HasKeyAuth (cc : ClientContentConfig) : bool :=
  nonempty (ccSecretID cc) && nonempty (ccSecretKey cc).

(** [NewRESTClient]. *)
Definition NewRESTClient (baseURL : URL_t) (versioned : string)
  (config : ClientContentConfig) (client : SuperAgent)
  : option RESTClient * option error :=
  let config' :=
    if is_empty (ccContentType config) then
      {| ccUsername := ccUsername config; ccPassword := ccPassword config;
         ccSecretID := ccSecretID config; ccSecretKey := ccSecretKey config;
         ccBearerToken := ccBearerToken config;
         ccBearerTokenFile := ccBearerTokenFile config;
         ccTLS := ccTLS config;
         ccAcceptContentTypes := ccAcceptContentTypes config;
         ccContentType := "application/json";
         ccGroupVersion := ccGroupVersion config;
         ccNegotiator := ccNegotiator config |}
    else config in
  let base' :=
    {| Scheme := Scheme baseURL; UHost := UHost baseURL;
       Path := if HasSuffix (Path baseURL) "/" then Path baseURL
               else Path baseURL ++ "/";
       RawQuery := ""; Fragment := "" |} in
  (Some {| base := Some base';
           group := Group (ccGroupVersion config');
           versionedAPIPath := versioned;
           rcContent := config';
           Client := client |}, None).

(** *** config.go: [RESTClientFor] *)

Definition RESTClientFor (config : Config)
  : Config * (option RESTClient * option error) :=
  match cfgGroupVersion (content config) with
  | None => (config, (None, Some ErrNoGroupVersion))
  | Some gv =>
      match cfgNegotiator (content config) with
      | None => (config, (None, Some ErrNoNegotiator))
      | Some neg =>
          match defaultServerURLFor config with
          | (_, _, Some e) => (config, (None, Some e))
          | (None, _, None) =>
              (* a nil URL without an error, which [DefaultServerURL] never
                 returns: see [defaultServerURLFor_url_or_error] *)
              (config, (None, None))
          | (Some baseURL, versioned, None) =>
              match TLSConfigFor config with
              | (config', (_, Some e)) => (config', (None, Some e))
              | (config', (tlsConfig, None)) =>
                  let client :=
                    ag_set_DoNotClear true
                      (ag_Retry (MaxRetries config') (RetryInterval config')
                         [StatusInternalServerError]
                         (ag_Timeout (cfgTimeout config')
                            (ag_TLSClientConfig tlsConfig gorequest_New))) in
                  let clientContent :=
                    {| ccUsername := Username config';
                       ccPassword := Password config';
                       ccSecretID := SecretID config';
                       ccSecretKey := SecretKey config';
                       ccBearerToken := BearerToken config';
                       ccBearerTokenFile := BearerTokenFile config';
                       ccTLS := tls config';
                       ccAcceptContentTypes :=
                         AcceptContentTypes (content config');
                       ccContentType := ContentType (content config');
                       ccGroupVersion := gv;
                       ccNegotiator := Some neg |} in
                  (config',
                   NewRESTClient baseURL versioned clientContent client)
              end
          end
      end
  end.

(** *** config.go: the User-Agent *)

(** [adjustCommit]. *)
Definition adjustCommit (commit : string) : string :=
  if is_empty commit then "unknown"
  else if 7 <? len commit then take 7 commit
  else commit.

(** [adjustVersion]. *)
Definition adjustVersion (v : string) : string :=
  if is_empty v then "unknown" else before_dash v.

(** [adjustCommand]. *)
Definition adjustCommand (p : string) : string :=
  if is_empty p then "unknown" else Base p.

(** [buildUserAgent]. *)
Definition buildUserAgent (command version os arch commit : string)
  : string :=
  command ++ "/" ++ version ++ " (" ++ os ++ "/" ++ arch ++ ") iam/"
    ++ commit.

(** [DefaultUserAgent]. *)
Definition DefaultUserAgent : string :=
  buildUserAgent (adjustCommand (Args0 w)) (adjustVersion (GitVersion w))
    (GOOS w) (GOARCH w) (adjustCommit (GitCommit w)).

(** *** config.go: printing a configuration *)

(** [CopyConfig]. [MaxRetries] and [RetryInterval] are not named in the
    literal and so are zero in the copy. *)
Definition CopyConfig (config : Config) : Config :=
  {| Host := Host config; APIPath := APIPath config;
     content := content config;
     Username := Username config; Password := Password config;
     SecretID := SecretID config; SecretKey := SecretKey config;
     BearerToken := BearerToken config;
     BearerTokenFile := BearerTokenFile config;
     tls := {| Insecure := Insecure (tls config);
               ServerName := ServerName (tls config);
               CertFile := CertFile (tls config);
               KeyFile := KeyFile (tls config);
               CAFile := CAFile (tls config);
               CertData := CertData (tls config);
               KeyData := KeyData (tls config);
               CAData := CAData (tls config);
               NextProtos := NextProtos (tls config) |};
     UserAgent := UserAgent config; cfgTimeout := cfgTimeout config;
     MaxRetries := 0; RetryInterval := 0 |}.

Definition REDACTED : string := "--- REDACTED ---".
Definition TRUNCATED : string := "--- TRUNCATED ---".

(** The three assignments of [Config.String] on the copy. *)
Definition redact (s : string) : string :=
  if nonempty s then REDACTED else s.

Definition sanitizedConfig (config : Config) : Config :=
  let cc := CopyConfig config in
  {| Host := Host cc; APIPath := APIPath cc; content := content cc;
     Username := Username cc; Password := redact (Password cc);
     SecretID := SecretID cc; SecretKey := redact (SecretKey cc);
     BearerToken := redact (BearerToken cc);
     BearerTokenFile := BearerTokenFile cc;
     tls := tls cc; UserAgent := UserAgent cc;
     cfgTimeout := cfgTimeout cc;
     MaxRetries := MaxRetries cc; RetryInterval := RetryInterval cc |}.

(** [Config.String], on a pointer that may be nil. *)
Definition Config_String (config : option Config) : string :=
  match config with
  | None => "<nil>"
  | Some cfg => sprintf_Config w (sanitizedConfig cfg)
  end.

(** [Config.GoString]. *)
Definition Config_GoString (config : option Config) : string :=
  Config_String config.

Definition sanitizedTLSClientConfig (t : TLSClientConfig)
  : TLSClientConfig :=
  {| Insecure := Insecure t; ServerName := ServerName t;
     CertFile := CertFile t; KeyFile := KeyFile t; CAFile := CAFile t;
     CertData := if nonempty_bytes (CertData t)
                 then bytes_of_string TRUNCATED else CertData t;
     KeyData := if nonempty_bytes (KeyData t)
                then bytes_of_string REDACTED else KeyData t;
     CAData := CAData t; NextProtos := NextProtos t |}.

(** [TLSClientConfig.String]. *)
Definition TLS_String (t : TLSClientConfig) : string :=
  sprintf_TLS w (sanitizedTLSClientConfig t).

(** [TLSClientConfig.GoString]. *)
Definition TLS_GoString (t : TLSClientConfig) : string := TLS_String t.

(** *** request.go: path segment names *)

Definition NameMayNotBe : list string := ["."; ".."].
Definition NameMayNotContain : list string := ["/"; "%"].

(** The second loop of [IsValidPathSegmentName], which is all of
    [IsValidPathSegmentPrefix]. *)
Definition IsValidPathSegmentPrefix (name : string) : list string :=
  flat_map
    (fun illegalContent =>
       if Contains name illegalContent
       then ["may not contain '" ++ illegalContent ++ "'"]
       else [])
    NameMayNotContain.

(** The first loop of [IsValidPathSegmentName]: the message of the first
    forbidden name that [name] is equal to. *)
Fixpoint first_illegal_name (name : string) (illegal : list string)
  : option string :=
  match illegal with
  | [] => None
  | illegalName :: rest =>
      if String.eqb name illegalName
      then Some ("may not be '" ++ illegalName ++ "'")
      else first_illegal_name name rest
  end.

(** [IsValidPathSegmentName]. *)
Definition IsValidPathSegmentName (name : string) : list string :=
  match first_illegal_name name NameMayNotBe with
  | Some msg => [msg]
  | None => IsValidPathSegmentPrefix name
  end.

(** [ValidatePathSegmentName]. *)
Definition ValidatePathSegmentName (name : string) (prefix : bool)
  : list string :=
  if prefix then IsValidPathSegmentPrefix name
  else IsValidPathSegmentName name.

(** *** request.go: the builder *)

Definition with_err (r : Request) (e : error) : Request :=
  {| c := c r; timeout := timeout r; verb := verb r;
     pathPrefix := pathPrefix r; subpath := subpath r; params := params r;
     headers := headers r; resource := resource r;
     resourceName := resourceName r; subresource := subresource r;
     err := Some e; body := body r |}.

Definition with_pathPrefix (r : Request) (p : string) : Request :=
  {| c := c r; timeout := timeout r; verb := verb r;
     pathPrefix := p; subpath := subpath r; params := params r;
     headers := headers r; resource := resource r;
     resourceName := resourceName r; subresource := subresource r;
     err := err r; body := body r |}.

Definition with_params (r : Request) (m : Values) : Request :=
  {| c := c r; timeout := timeout r; verb := verb r;
     pathPrefix := pathPrefix r; subpath := subpath r; params := m;
     headers := headers r; resource := resource r;
     resourceName := resourceName r; subresource := subresource r;
     err := err r; body := body r |}.

Definition with_headers (r : Request) (h : Header) : Request :=
  {| c := c r; timeout := timeout r; verb := verb r;
     pathPrefix := pathPrefix r; subpath := subpath r; params := params r;
     headers := h; resource := resource r;
     resourceName := resourceName r; subresource := subresource r;
     err := err r; body := body r |}.

(** [Header.Del] and [Header.Add] work on the canonical form of the key. *)
Definition Header_Del (key : string) (h : Header) : Header :=
  delete (CanonicalMIMEHeaderKey key) h.

Definition Header_Add (key value : string) (h : Header) : Header :=
  Values_Add (CanonicalMIMEHeaderKey key) value h.

(** [Header.Get]. *)
Definition Header_Get (h : Header) (key : string) : string :=
  Values_Get h (CanonicalMIMEHeaderKey key).

(** [Request.SetHeader]. *)
Definition SetHeader (key : string) (values : list string) (r : Request)
  : Request :=
  with_headers r
    (fold_left (fun h value => Header_Add key value h) values
       (Header_Del key (headers r))).

(** [basicAuth]. *)
Definition basicAuth (username password : string) : string :=
  EncodeToString (bytes_of_string (username ++ ":" ++ password)).

(** The count [authMethod] of [NewRequest]. *)
Definition authMethod (cc : ClientContentConfig) : Z :=
  fold_left (fun n (fn : bool) => if fn then n + 1 else n)
    [HasBasicAuth cc; HasTokenAuth cc; HasKeyAuth cc] 0.

(** [NewRequest]. *)
Definition NewRequest (cl : RESTClient) : Request :=
  let pathPrefix :=
    match base cl with
    | Some b => path_Join ["/"; Path b; versionedAPIPath cl]
    | None => path_Join ["/"; versionedAPIPath cl]
    end in
  let r :=
    {| c := cl; timeout := 0; verb := ""; pathPrefix := pathPrefix;
       subpath := ""; params := ∅; headers := ∅; resource := "";
       resourceName := ""; subresource := ""; err := None;
       body := None |} in
  let cc := rcContent cl in
  if 1 <? authMethod cc then with_err r ErrAuthMethods
  else
    let r1 :=
      if HasTokenAuth cc then
        SetHeader "Authorization" ["Bearer " ++ ccBearerToken cc] r
      else if HasKeyAuth cc then
        let tokenString :=
          Sign w (ccSecretID cc) (ccSecretKey cc) "marmotedu-sdk-go"
            (group cl ++ ".marmotedu.com") in
        SetHeader "Authorization" ["Bearer " ++ tokenString] r
      else if HasBasicAuth cc then
        SetHeader "Authorization"
          ["Basic " ++ basicAuth (ccUsername cc) (ccPassword cc)] r
      else r in
    if nonempty (ccAcceptContentTypes cc) then
      SetHeader "Accept" [ccAcceptContentTypes cc] r1
    else if nonempty (ccContentType cc) then
      SetHeader "Accept" [ccContentType cc ++ ", */*"] r1
    else r1.

(** [NewRequestWithClient]. *)
Definition NewRequestWithClient (b : option URL_t) (versioned : string)
  (cc : ClientContentConfig) (client : SuperAgent) : Request :=
  NewRequest {| base := b; group := ""; versionedAPIPath := versioned;
                rcContent := cc; Client := client |}.

(** [Request.Verb]. *)
Definition Verb (v : string) (r : Request) : Request :=
  {| c := c r; timeout := timeout r; verb := v;
     pathPrefix := pathPrefix r; subpath := subpath r; params := params r;
     headers := headers r; resource := resource r;
     resourceName := resourceName r; subresource := subresource r;
     err := err r; body := body r |}.

(** [Request.Prefix]. *)
Definition Prefix (segments : list string) (r : Request) : Request :=
  match err r with
  | Some _ => r
  | None =>
      with_pathPrefix r (path_Join [pathPrefix r; path_Join segments])
  end.

(** [Request.Suffix]. *)
Definition Suffix (segments : list string) (r : Request) : Request :=
  match err r with
  | Some _ => r
  | None =>
      {| c := c r; timeout := timeout r; verb := verb r;
         pathPrefix := pathPrefix r;
         subpath := path_Join [subpath r; path_Join segments];
         params := params r; headers := headers r;
         resource := resource r; resourceName := resourceName r;
         subresource := subresource r; err := err r; body := body r |}
  end.

(** [Request.Resource]. *)
Definition Resource (res : string) (r : Request) : Request :=
  match err r with
  | Some _ => r
  | None =>
      if nonempty (resource r)
      then with_err r (ErrResourceSet (resource r) res)
      else
        match IsValidPathSegmentName res with
        | (_ :: _) as msgs => with_err r (ErrInvalidResource res msgs)
        | [] =>
            {| c := c r; timeout := timeout r; verb := verb r;
               pathPrefix := pathPrefix r; subpath := subpath r;
               params := params r; headers := headers r;
               resource := res; resourceName := resourceName r;
               subresource := subresource r; err := err r;
               body := body r |}
        end
  end.

(** The loop of [SubResource] over the segments: the first one that is
    not a valid path segment, with its messages. *)
Fixpoint first_invalid_segment (segments : list string)
  : option (string * list string) :=
  match segments with
  | [] => None
  | s :: rest =>
      match IsValidPathSegmentName s with
      | (_ :: _) as msgs => Some (s, msgs)
      | [] => first_invalid_segment rest
      end
  end.

(** [Request.SubResource]. The message of the already-set error quotes
    [r.resource], as the source does. *)
Definition SubResource (subresources : list string) (r : Request)
  : Request :=
  match err r with
  | Some _ => r
  | None =>
      let sub := path_Join subresources in
      if nonempty (subresource r)
      then with_err r (ErrSubresourceSet (resource r) sub)
      else
        match first_invalid_segment subresources with
        | Some (s, msgs) => with_err r (ErrInvalidSubresource s msgs)
        | None =>
            {| c := c r; timeout := timeout r; verb := verb r;
               pathPrefix := pathPrefix r; subpath := subpath r;
               params := params r; headers := headers r;
               resource := resource r; resourceName := resourceName r;
               subresource := sub; err := err r; body := body r |}
        end
  end.

(** [Request.Name]. *)
Definition Name (name : string) (r : Request) : Request :=
  match err r with
  | Some _ => r
  | None =>
      if is_empty name then with_err r ErrNameEmpty
      else if nonempty (resourceName r)
      then with_err r (ErrNameSet (resourceName r) name)
      else
        match IsValidPathSegmentName name with
        | (_ :: _) as msgs => with_err r (ErrInvalidName name msgs)
        | [] =>
            {| c := c r; timeout := timeout r; verb := verb r;
               pathPrefix := pathPrefix r; subpath := subpath r;
               params := params r; headers := headers r;
               resource := resource r; resourceName := name;
               subresource := subresource r; err := err r;
               body := body r |}
        end
  end.

(** [Request.AbsPath]. The base URL of the client is dereferenced: a
    client without one makes the call panic. *)
Definition AbsPath (segments : list string) (r : Request)
  : outcome Request :=
  match err r with
  | Some _ => Returned r
  | None =>
      match base (c r) with
      | None => Panicked
      | Some b =>
          let p := path_Join [Path b; path_Join segments] in
          match segments with
          | [seg] =>
              if ((1 <? len (Path b)) || (1 <? len seg)) && HasSuffix seg "/"
              then Returned (with_pathPrefix r (p ++ "/"))
              else Returned (with_pathPrefix r p)
          | _ => Returned (with_pathPrefix r p)
          end
      end
  end.

(** [Request.RequestURI]: the parameters of the URI replace, key by key,
    those of the request. *)
Definition RequestURI (uri : string) (r : Request) : Request :=
  match err r with
  | Some _ => r
  | None =>
      match url_Parse w uri with
      | (_, Some e) => with_err r e
      | (locator, None) =>
          let r1 := with_pathPrefix r (Path locator) in
          let q := url_Query w locator in
          if 0 <? Z.of_nat (size q)
          then with_params r1 (q ∪ params r1)
          else r1
      end
  end.

(** [Request.setParam]. *)
Definition setParam (paramName value : string) (r : Request) : Request :=
  with_params r (Values_Add paramName value (params r)).

(** [Request.Param]. *)
Definition Param (paramName s : string) (r : Request) : Request :=
  match err r with
  | Some _ => r
  | None => setParam paramName s r
  end.

(** [Request.VersionedParams]: the options go to the agent of the
    client. *)
Definition VersionedParams (v : Obj) (r : Request) : Request :=
  match err r with
  | Some _ => r
  | None =>
      let cl := c r in
      let cl' :=
        {| base := base cl; group := group cl;
           versionedAPIPath := versionedAPIPath cl;
           rcContent := rcContent cl;
           Client := ag_Query v (Client cl) |} in
      {| c := cl'; timeout := timeout r; verb := verb r;
         pathPrefix := pathPrefix r; subpath := subpath r;
         params := params r; headers := headers r;
         resource := resource r; resourceName := resourceName r;
         subresource := subresource r; err := err r; body := body r |}
  end.

(** [Request.Timeout]. *)
Definition Timeout (d : Duration) (r : Request) : Request :=
  match err r with
  | Some _ => r
  | None =>
      {| c := c r; timeout := d; verb := verb r;
         pathPrefix := pathPrefix r; subpath := subpath r;
         params := params r; headers := headers r;
         resource := resource r; resourceName := resourceName r;
         subresource := subresource r; err := err r; body := body r |}
  end.

(** The loop of [URL] that copies the parameters, value by value, into a
    fresh [url.Values]. *)
Definition copy_params (m : Values) : Values :=
  map_fold
    (fun key values query =>
       fold_left (fun q value => Values_Add key value q) values query)
    ∅ m.

(** The [query] that [URL] encodes. *)
Definition URL_query (r : Request) : Values :=
  let query := copy_params (params r) in
  if negb (timeout r =? 0)
  then Values_Set "timeout" (Duration_String (timeout r)) query
  else query.

(** The path that [URL] assembles. *)
Definition URL_path (r : Request) : string :=
  let p := pathPrefix r in
  let p1 :=
    if nonempty (resource r)
    then path_Join [p; ToLower (Map_unicode_ToLower w) (resource r)]
    else p in
  if nonempty (resourceName r) || nonempty (subpath r)
     || nonempty (subresource r)
  then path_Join [p1; resourceName r; subresource r; subpath r]
  else p1.

(** [Request.URL]. *)
Definition URL (r : Request) : URL_t :=
  let finalURL :=
    match base (c r) with
    | Some b => b
    | None => empty_URL
    end in
  {| Scheme := Scheme finalURL; UHost := UHost finalURL;
     Path := URL_path r;
     RawQuery := Values_Encode (URL_query r);
     Fragment := Fragment finalURL |}.

(** [Request.Body]. *)
Definition Body (obj : Obj) (r : Request) : Request :=
  let r1 :=
    if obj_is_struct obj
    then SetHeader "Content-Type" [ccContentType (rcContent (c r))] r
    else r in
  {| c := c r1; timeout := timeout r1; verb := verb r1;
     pathPrefix := pathPrefix r1; subpath := subpath r1;
     params := params r1; headers := headers r1;
     resource := resource r1; resourceName := resourceName r1;
     subresource := subresource r1; err := err r1; body := Some obj |}.

(** [combineErr]. The loop assigns, it does not append: the message is
    that of the last error, after a newline when there were several. *)
Definition combineErr (resp : Response) (data : bytes) (errs : list string)
  : option error :=
  match errs with
  | _ :: _ =>
      let '(e, _) :=
        fold_left (fun '(_, sep) msg => (sep ++ msg, String "010" ""))
          errs ("", "") in
      Some (ErrNew e)
  | [] =>
      if negb (StatusCode resp =? StatusOK)
      then Some (ErrNew (string_of_bytes data))
      else None
  end.

(** The agent as [Do] hands it to the round trip. *)
Definition Do_agent (r : Request) : SuperAgent :=
  ag_prepare (headers r)
    (if 0 <? timeout r then Some (timeout r) else None)
    (verb r) (url_String w (URL r)) (body r) (Client (c r)).

(** [Request.Do]. The negotiator of the client is dereferenced once the
    round trip has succeeded. *)
Definition Do (r : Request) : outcome Result :=
  let '(resp, data, errs) := EndBytes w (Do_agent r) in
  match combineErr resp data errs with
  | Some e =>
      Returned {| response := resp; rerr := Some e; rbody := data;
                  decoder := None |}
  | None =>
      match ccNegotiator (rcContent (c r)) with
      | None => Panicked
      | Some neg =>
          match neg_Decoder neg with
          | (dec, Some e) =>
              Returned {| response := resp; rerr := Some e; rbody := data;
                          decoder := dec |}
          | (dec, None) =>
              Returned {| response := resp; rerr := None; rbody := data;
                          decoder := dec |}
          end
      end
  end.

(** [Result.Raw]. *)
Definition Raw (res : Result) : bytes * option error :=
  (rbody res, rerr res).

(** [Result.Error]. *)
Definition Error (res : Result) : option error := rerr res.

(** [Result.Into]: the target after the call, and the error. *)
Definition Into (v : Obj) (res : Result) : Obj * option error :=
  match rerr res with
  | Some e => (v, Error res)
  | None =>
      match decoder res with
      | None => (v, Some ErrNoSerializer)
      | Some dec => dec (rbody res) v
      end
  end.

(** *** client.go: the verbs *)

(** [RESTClient.Verb]. *)
Definition Client_Verb (v : string) (cl : RESTClient) : Request :=
  Verb v (NewRequest cl).

Definition Get (cl : RESTClient) : Request := Client_Verb "GET" cl.
Definition Delete (cl : RESTClient) : Request := Client_Verb "DELETE" cl.

(** [RESTClient.APIVersion]. *)
Definition APIVersion (cl : RESTClient) : GroupVersion :=
  ccGroupVersion (rcContent cl).

End WithWorld.

End Rest.

(** ** Package [tools/clientcmd] *)

Module Clientcmd.
Import GoLib.

(** [Server]. *)
Record Server : Type := {
  srvLocationOfOrigin : string;
  srvTimeout : Duration;
  srvMaxRetries : Z;
  srvRetryInterval : Duration;
  Address : string;
  TLSServerName : string;
  InsecureSkipTLSVerify : bool;
  CertificateAuthority : string;
  CertificateAuthorityData : string
}.

(** [AuthInfo]. *)
Record AuthInfo : Type := {
  LocationOfOrigin : string;
  ClientCertificate : string;
  ClientCertificateData : string;
  ClientKey : string;
  ClientKeyData : string;
  Token : string;
  Username : string;
  Password : string;
  SecretID : string;
  SecretKey : string
}.

(** [Config]; its two fields are pointers and may be nil. *)
Record Config : Type := {
  APIVersion : string;
  cAuthInfo : option AuthInfo;
  cServer : option Server
}.

(** [&Server{}] and [&AuthInfo{}]. *)
Definition empty_Server : Server :=
  {| srvLocationOfOrigin := ""; srvTimeout := 0; srvMaxRetries := 0;
     srvRetryInterval := 0; Address := ""; TLSServerName := "";
     InsecureSkipTLSVerify := false; CertificateAuthority := "";
     CertificateAuthorityData := "" |}.

Definition empty_AuthInfo : AuthInfo :=
  {| LocationOfOrigin := ""; ClientCertificate := "";
     ClientCertificateData := ""; ClientKey := ""; ClientKeyData := "";
     Token := ""; Username := ""; Password := ""; SecretID := "";
     SecretKey := "" |}.

(** [NewConfig]. *)
Definition NewConfig : Config :=
  {| APIVersion := ""; cAuthInfo := Some empty_AuthInfo;
     cServer := Some empty_Server |}.

(** The file system and the YAML decoder. [yaml_Unmarshal data config] is
    the configuration after [yaml.Unmarshal(data, config)], and the
    error. *)
Record World : Type := {
  FS_ReadFile : string -> bytes * option error;
  FS_Open : string -> option error;
  yaml_Unmarshal : bytes -> Config -> Config * option error
}.

Definition set_ai_origin (a : AuthInfo) (filename : string) : AuthInfo :=
  {| LocationOfOrigin := filename;
     ClientCertificate := ClientCertificate a;
     ClientCertificateData := ClientCertificateData a;
     ClientKey := ClientKey a; ClientKeyData := ClientKeyData a;
     Token := Token a; Username := Username a; Password := Password a;
     SecretID := SecretID a; SecretKey := SecretKey a |}.

Definition set_srv_origin (s : Server) (filename : string) : Server :=
  {| srvLocationOfOrigin := filename; srvTimeout := srvTimeout s;
     srvMaxRetries := srvMaxRetries s;
     srvRetryInterval := srvRetryInterval s; Address := Address s;
     TLSServerName := TLSServerName s;
     InsecureSkipTLSVerify := InsecureSkipTLSVerify s;
     CertificateAuthority := CertificateAuthority s;
     CertificateAuthorityData := CertificateAuthorityData s |}.

(** The list [methods] that [validateAuthInfo] collects. *)
Definition methods (authInfo : AuthInfo) : list string :=
  ((if nonempty (Token authInfo) then ["token"] else [])
   ++ (if nonempty (Username authInfo) || nonempty (Password authInfo)
       then ["basicAuth"] else [])
   ++ (if nonempty (SecretID authInfo) || nonempty (SecretKey authInfo)
       then ["secretAuth"] else []))%list.

Section WithWorld.
Variable w : World.

(** The error of opening a file for reading, wrapped by [mk]. *)
Definition open_error (mk : string -> error -> error) (file : string)
  : list error :=
  if nonempty file then
    match FS_Open w file with
    | Some e => [mk file e]
    | None => []
    end
  else [].

(** [validateAuthInfo]. *)
Definition validateAuthInfo (authInfo : AuthInfo) : list error :=
  let usingAuthPath := false in
  let ms := methods authInfo in
  let validationErrors :=
    if (1 <? Z.of_nat (length ms)) && negb usingAuthPath
    then [ErrManyAuthMethods ms] else [] in
  if is_empty (ClientCertificate authInfo)
     || is_empty (ClientCertificateData authInfo)
  then validationErrors
  else
    (validationErrors
     ++ (if nonempty (ClientCertificate authInfo)
            && nonempty (ClientCertificateData authInfo)
         then [ErrClientCertBoth] else [])
     ++ (if nonempty (ClientKey authInfo)
            && nonempty (ClientKeyData authInfo)
         then [ErrClientKeyBoth] else [])
     ++ (if is_empty (ClientKey authInfo)
            && is_empty (ClientKeyData authInfo)
         then [ErrClientKeyMissing] else [])
     ++ open_error ErrReadClientCert (ClientCertificate authInfo)
     ++ open_error ErrReadClientKey (ClientKey authInfo))%list.

(** [Load]. *)
Definition Load (data : bytes) : option Config * option error :=
  let config := NewConfig in
  match data with
  | [] => (Some config, None)
  | _ :: _ =>
      match yaml_Unmarshal w data config with
      | (_, Some e) => (None, Some e)
      | (config', None) => (Some config', None)
      end
  end.

(** [LoadFromFile]. The two origins are written through
    [config.AuthInfo] and [config.Server] before these pointers are
    compared with nil. *)
Definition LoadFromFile (filename : string)
  : outcome (option Config * option error) :=
  match FS_ReadFile w filename with
  | (_, Some e) => Returned (None, Some e)
  | (iamconfigBytes, None) =>
      match Load iamconfigBytes with
      | (_, Some e) => Returned (None, Some e)
      | (None, None) => Panicked
      | (Some config, None) =>
          match cAuthInfo config with
          | None => Panicked
          | Some ai =>
              let ai' := set_ai_origin ai filename in
              match cServer config with
              | None => Panicked
              | Some sv =>
                  let sv' := set_srv_origin sv filename in
                  let config1 :=
                    {| APIVersion := APIVersion config;
                       cAuthInfo := Some ai'; cServer := Some sv' |} in
                  let config2 :=
                    match cAuthInfo config1 with
                    | None =>
                        {| APIVersion := APIVersion config1;
                           cAuthInfo := Some empty_AuthInfo;
                           cServer := cServer config1 |}
                    | Some _ => config1
                    end in
                  let config3 :=
                    match cServer config2 with
                    | None =>
                        {| APIVersion := APIVersion config2;
                           cAuthInfo := cAuthInfo config2;
                           cServer := Some empty_Server |}
                    | Some _ => config2
                    end in
                  Returned (Some config3, None)
              end
          end
      end
  end.

End WithWorld.

End Clientcmd.

(** ** The typed clients: [apiserver/v1] and [authz/v1] *)

Module Apiserver.
Import GoLib.

(** The resources of [APIV1Interface]: [UsersGetter], [SecretsGetter],
    [PoliciesGetter]. *)
Inductive Kind : Type := Users | Secrets | Policies.

(** The literal handed to [Resource] in [user.go], [secret.go] and
    [policy.go]. *)
Definition resource_of (k : Kind) : string :=
  match k with
  | Users => "users"
  | Secrets => "secrets"
  | Policies => "policies"
  end.



(** [metav1.GetOptions], [CreateOptions], [UpdateOptions],
    [AuthorizeOptions], passed by value. *)
Record Options : Type := {
  OptionsData : string
}.

Definition opt_value (o : Options) : Obj :=
  {| obj_is_struct := true; obj_data := OptionsData o |}.

Definition opt_ptr (o : Options) : Obj :=
  {| obj_is_struct := false; obj_data := OptionsData o |}.

(** [metav1.ListOptions]. *)
Record ListOptions : Type := {
  TimeoutSeconds : option Z;
  ListData : string
}.

Definition list_value (o : ListOptions) : Obj :=
  {| obj_is_struct := true; obj_data := ListData o |}.

(** The pointer to a zero value that receives the decoded response. *)
Definition zero_result : Obj := {| obj_is_struct := false; obj_data := "" |}.

(** [int64] arithmetic wraps around. *)
Definition wrap64 (z : Z) : Z := (z + 2 ^ 63) mod 2 ^ 64 - 2 ^ 63.

(** The timeout of a list call: [TimeoutSeconds] seconds as a
    [time.Duration], or zero when the pointer is nil. *)
Definition list_timeout (o : ListOptions) : Duration :=
  match TimeoutSeconds o with
  | Some s => wrap64 (s * Second)
  | None => 0
  end.

Section WithWorld.
Variable w : Rest.World.

(** [.Do(ctx).Into(result)]. *)
Definition do_into (r : Rest.Request) : outcome (Obj * option error) :=
  match Rest.Do w r with
  | Returned res => Returned (Rest.Into zero_result res)
  | Panicked => Panicked
  end.

(** [.Do(ctx).Error()]. *)
Definition do_error (r : Rest.Request) : outcome (option error) :=
  match Rest.Do w r with
  | Returned res => Returned (Rest.Error res)
  | Panicked => Panicked
  end.

(** The request each method builds before [Do]. *)
Definition Get_request (cl : Rest.RESTClient) (k : Kind) (name : string)
  (options : Options) : Rest.Request :=
  Rest.VersionedParams (opt_value options)
    (Rest.Name name (Rest.Resource (resource_of k) (Rest.Get w cl))).

Definition List_request (cl : Rest.RESTClient) (k : Kind)
  (opts : ListOptions) : Rest.Request :=
  Rest.Timeout (list_timeout opts)
    (Rest.VersionedParams (list_value opts)
       (Rest.Resource (resource_of k) (Rest.Get w cl))).



Definition Delete_request (cl : Rest.RESTClient) (k : Kind)
  (name : string) (opts : Options) : Rest.Request :=
  Rest.Body (opt_ptr opts)
    (Rest.Name name (Rest.Resource (resource_of k) (Rest.Delete w cl))).



(** The methods of [UserInterface], [SecretInterface] and
    [PolicyInterface], and [AuthzInterface.Authorize]. *)
Definition Get cl k name options := do_into (Get_request cl k name options).
Definition List cl k opts := do_into (List_request cl k opts).
Definition Delete cl k name opts := do_error (Delete_request cl k name opts).

End WithWorld.

End Apiserver.

(** ** Sequences of builder calls *)

Module Chain.
Import GoLib.

(** A call of one of the setters that look at the recorded error. *)
Inductive BuilderCall : Type :=
| CallPrefix (segments : list string)
| CallSuffix (segments : list string)
| CallResource (resource : string)
| CallSubResource (subresources : list string)
| CallName (resourceName : string)
| CallAbsPath (segments : list string)
| CallRequestURI (uri : string)
| CallParam (paramName s : string)
| CallVersionedParams (v : Obj)
| CallTimeout (d : Duration).

Section WithWorld.
Variable w : Rest.World.

Definition call (b : BuilderCall) (r : Rest.Request)
  : outcome Rest.Request :=
  match b with
  | CallPrefix segments => Returned (Rest.Prefix segments r)
  | CallSuffix segments => Returned (Rest.Suffix segments r)
  | CallResource res => Returned (Rest.Resource res r)
  | CallSubResource subs => Returned (Rest.SubResource subs r)
  | CallName name => Returned (Rest.Name name r)
  | CallAbsPath segments => Rest.AbsPath segments r
  | CallRequestURI uri => Returned (Rest.RequestURI w uri r)
  | CallParam k v => Returned (Rest.Param k v r)
  | CallVersionedParams v => Returned (Rest.VersionedParams v r)
  | CallTimeout d => Returned (Rest.Timeout d r)
  end.

(** The chained calls [r.b1(...).b2(...)...]. *)
Fixpoint calls (bs : list BuilderCall) (r : Rest.Request)
  : outcome Rest.Request :=
  match bs with
  | [] => Returned r
  | b :: bs' =>
      match call b r with
      | Returned r' => calls bs' r'
      | Panicked => Panicked
      end
  end.

End WithWorld.

End Chain.

(** ** A concrete world

    Stand-ins for what lies outside the repository, used to run the
    definitions on concrete inputs. *)

Module Demo.
Import GoLib.

(** [s] cut at its first slash. *)
Fixpoint cut_at_slash (s : string) : string * string :=
  match s with
  | "" => ("", "")
  | String ch s' =>
      if Ascii.eqb ch "/" then ("", s)
      else let '(h, p) := cut_at_slash s' in (String ch h, p)
  end.

(** [s] without its first [n] bytes. *)
Fixpoint drop (n : nat) (s : string) : string :=
  match n, s with
  | S n', String _ s' => drop n' s'
  | _, _ => s
  end.

(** A parser for [http://host/path] and [https://host/path]; anything else
    is a path. *)
Definition parse (s : string) : Rest.URL_t * option error :=
  let mk scheme rest :=
    let '(h, p) := cut_at_slash rest in
    {| Rest.Scheme := scheme; Rest.UHost := h; Rest.Path := p;
       Rest.RawQuery := ""; Rest.Fragment := "" |} in
  if HasPrefix s "https://" then (mk "https" (drop 8 s), None)
  else if HasPrefix s "http://" then (mk "http" (drop 7 s), None)
  else ({| Rest.Scheme := ""; Rest.UHost := ""; Rest.Path := s;
           Rest.RawQuery := ""; Rest.Fragment := "" |}, None).

Definition url_to_string (u : Rest.URL_t) : string :=
  (if is_empty (Rest.Scheme u) then "" else Rest.Scheme u ++ "://")
  ++ Rest.UHost u ++ Rest.Path u
  ++ (if is_empty (Rest.RawQuery u) then "" else "?" ++ Rest.RawQuery u).

(** A printer that shows every string field of a configuration. *)
Definition print_config (cfg : Rest.Config) : string :=
  "&rest.Config{Host:" ++ Rest.Host cfg
  ++ ", Username:" ++ Rest.Username cfg
  ++ ", Password:" ++ Rest.Password cfg
  ++ ", SecretID:" ++ Rest.SecretID cfg
  ++ ", SecretKey:" ++ Rest.SecretKey cfg
  ++ ", BearerToken:" ++ Rest.BearerToken cfg ++ "}".

Definition print_tls (t : Rest.TLSClientConfig) : string :=
  "rest.sanitizedTLSClientConfig{ServerName:" ++ Rest.ServerName t
  ++ ", CertData:" ++ string_of_bytes (Rest.CertData t)
  ++ ", KeyData:" ++ string_of_bytes (Rest.KeyData t) ++ "}".

(** A server that answers every request with [200] and an empty JSON
    object; no file exists. The case mapping of the strings that are not
    ASCII is a stand-in that leaves them as they are; no string of the
    examples is of that sort. *)
Definition world : Rest.World :=
  {| Rest.Sign := fun secretID _ _ aud => "token-of-" ++ secretID ++ "-for-" ++ aud;
     Rest.url_Parse := parse;
     Rest.url_Query := fun _ => ∅;
     Rest.url_String := url_to_string;
     Rest.Map_unicode_ToLower := fun s => s;
     Rest.ReadFile := fun _ => ([], Some (ErrForeign "no such file"));
     Rest.DecodeString := fun s => (bytes_of_string s, None);
     Rest.X509KeyPair :=
       fun cert key => ({| Rest.certPEM := cert; Rest.keyPEM := key |}, None);
     Rest.sprintf_Config := print_config;
     Rest.sprintf_TLS := print_tls;
     Rest.Args0 := "/usr/local/bin/iamctl";
     Rest.GitVersion := "v1.6.2-12-g0a1b2c3";
     Rest.GitCommit := "0a1b2c3d4e5f60718293";
     Rest.GOOS := "linux";
     Rest.GOARCH := "amd64";
     Rest.EndBytes :=
       fun _ => ({| Rest.StatusCode := 200 |}, bytes_of_string "{}", []) |}.

(** A decoder that stores the body in the target. *)
Definition decode : Rest.Decoder :=
  fun data v =>
    ({| obj_is_struct := obj_is_struct v;
        obj_data := string_of_bytes data |}, None).

Definition negotiator : Rest.Negotiator :=
  {| Rest.neg_Decoder := (Some decode, None) |}.

Definition no_tls : Rest.TLSClientConfig :=
  {| Rest.Insecure := false; Rest.ServerName := ""; Rest.CertFile := "";
     Rest.KeyFile := ""; Rest.CAFile := ""; Rest.CertData := [];
     Rest.KeyData := []; Rest.CAData := []; Rest.NextProtos := [] |}.

(** The configuration of the repository's examples: basic authentication
    against a local server, with a retry policy. *)
Definition config : Rest.Config :=
  {| Rest.Host := "http://127.0.0.1:8080"; Rest.APIPath := "";
     Rest.content :=
       {| Rest.ServiceName := "iam"; Rest.AcceptContentTypes := "";
          Rest.ContentType := "";
          Rest.cfgGroupVersion :=
            Some {| Rest.Group := "iam.api"; Rest.Version := "v1" |};
          Rest.cfgNegotiator := Some negotiator |};
     Rest.Username := "admin"; Rest.Password := "Admin@2021";
     Rest.SecretID := ""; Rest.SecretKey := ""; Rest.BearerToken := "";
     Rest.BearerTokenFile := ""; Rest.tls := no_tls; Rest.UserAgent := "";
     Rest.cfgTimeout := 10000000000; Rest.MaxRetries := 3;
     Rest.RetryInterval := 1000000000 |}.

Definition content_of (username password token secretID secretKey : string)
  : Rest.ClientContentConfig :=
  {| Rest.ccUsername := username; Rest.ccPassword := password;
     Rest.ccSecretID := secretID; Rest.ccSecretKey := secretKey;
     Rest.ccBearerToken := token; Rest.ccBearerTokenFile := "";
     Rest.ccTLS := no_tls; Rest.ccAcceptContentTypes := "";
     Rest.ccContentType := "application/json";
     Rest.ccGroupVersion := {| Rest.Group := "iam.api"; Rest.Version := "v1" |};
     Rest.ccNegotiator := Some negotiator |}.

Definition client_of (cc : Rest.ClientContentConfig) : Rest.RESTClient :=
  {| Rest.base := Some {| Rest.Scheme := "http"; Rest.UHost := "127.0.0.1:8080";
                          Rest.Path := "/"; Rest.RawQuery := "";
                          Rest.Fragment := "" |};
     Rest.group := "iam.api"; Rest.versionedAPIPath := "/v1";
     Rest.rcContent := cc; Rest.Client := Rest.gorequest_New |}.

(** A client with basic authentication only, and one that carries both a
    user name and a bearer token. *)
Definition basic_client : Rest.RESTClient :=
  client_of (content_of "admin" "Admin@2021" "" "" "").

Definition conflicting_client : Rest.RESTClient :=
  client_of (content_of "admin" "Admin@2021" "some-token" "" "").

(** The world of [clientcmd]: one file, [iam.yaml], whose document gives
    the key [user] the value [null]; the decoder stand-in turns that
    document into a nil [AuthInfo], as the YAML decoder does with a null
    for a pointer field. *)
Definition null_user_document : bytes := bytes_of_string "user: null".

Definition cworld : Clientcmd.World :=
  {| Clientcmd.FS_ReadFile :=
       fun name =>
         if String.eqb name "iam.yaml" then (null_user_document, None)
         else ([], Some (ErrForeign "no such file"));
     Clientcmd.FS_Open := fun _ => Some (ErrForeign "no such file");
     Clientcmd.yaml_Unmarshal :=
       fun data cfg =>
         if String.eqb (string_of_bytes data) "user: null"
         then ({| Clientcmd.APIVersion := Clientcmd.APIVersion cfg;
                  Clientcmd.cAuthInfo := None;
                  Clientcmd.cServer := Clientcmd.cServer cfg |}, None)
         else (cfg, Some (ErrForeign "yaml: unmarshal error")) |}.

End Demo.

(** ** Package [rest]: defaults of a configuration *)

Module RestDefaults.
Import GoLib.

Definition with_UserAgent (config : Rest.Config) (ua : string)
  : Rest.Config :=
  {| Rest.Host := Rest.Host config; Rest.APIPath := Rest.APIPath config;
     Rest.content := Rest.content config;
     Rest.Username := Rest.Username config;
     Rest.Password := Rest.Password config;
     Rest.SecretID := Rest.SecretID config;
     Rest.SecretKey := Rest.SecretKey config;
     Rest.BearerToken := Rest.BearerToken config;
     Rest.BearerTokenFile := Rest.BearerTokenFile config;
     Rest.tls := Rest.tls config; Rest.UserAgent := ua;
     Rest.cfgTimeout := Rest.cfgTimeout config;
     Rest.MaxRetries := Rest.MaxRetries config;
     Rest.RetryInterval := Rest.RetryInterval config |}.

(** url_utils.go: [DefaultVersionedAPIPath]. *)
Definition DefaultVersionedAPIPath (apiPath : string)
  (groupVersion : Rest.GroupVersion) : string :=
  let versionedAPIPath := path_Join ["/"; apiPath] in
  if 0 <? len (Rest.Group groupVersion)
  then path_Join [versionedAPIPath; Rest.Group groupVersion;
                  Rest.Version groupVersion]
  else path_Join [versionedAPIPath; Rest.Version groupVersion].

Section WithWorld.
Variable w : Rest.World.

(** config.go: [SetIAMDefaults]; the configuration after the call, and
    the error. *)
Definition SetIAMDefaults (config : Rest.Config)
  : Rest.Config * option error :=
  if len (Rest.UserAgent config) =? 0
  then (with_UserAgent config (Rest.DefaultUserAgent w), None)
  else (config, None).

(** config.go: [AddUserAgent]. *)
Definition AddUserAgent (config : Rest.Config) (userAgent : string)
  : Rest.Config :=
  let fullUserAgent := Rest.DefaultUserAgent w ++ "/" ++ userAgent in
  with_UserAgent config fullUserAgent.

End WithWorld.

End RestDefaults.

(** ** Package [tools/clientcmd]: from a loaded file to a [rest.Config] *)

Module DirectClientConfig.
Import GoLib.

(** The errors of validation.go and client_config.go: those of
    [validateAuthInfo], the two package variables [ErrEmptyServer] and
    [ErrEmptyConfig], and the two [fmt.Errorf] sites of
    [validateServerInfo]. *)
Inductive validation_error : Type :=
| AuthInfoError (e : error)
| ErrEmptyServer
| ErrEmptyConfig
| ErrCABoth
| ErrReadCA (file : string) (cause : error).

(** What the functions of the package return as [error]: the slice type
    [errConfigurationInvalid], one of the errors above on its own, or an
    error handed over by [LoadFromFile]. *)
Inductive cmd_error : Type :=
| errConfigurationInvalid (errs : list validation_error)
| Plain (e : validation_error)
| Loading (e : error).

(** [newErrConfigurationInvalid]. *)
Definition newErrConfigurationInvalid (errs : list validation_error)
  : option cmd_error :=
  match length errs with
  | O => None
  | _ => Some (errConfigurationInvalid errs)
  end.

(** [IsEmptyConfig]. *)
Definition IsEmptyConfig (err : cmd_error) : bool :=
  match err with
  | errConfigurationInvalid t =>
      match t with
      | [ErrEmptyConfig] => true
      | _ => false
      end
  | Plain ErrEmptyConfig => true
  | _ => false
  end.

(** [IsConfigurationInvalid]. *)
Definition IsConfigurationInvalid (err : cmd_error) : bool :=
  match err with
  | errConfigurationInvalid _ => true
  | _ => false
  end.

(** [reflect.DeepEqual(Server{}, serverInfo)]: every field has its zero
    value. *)
Definition is_zero_Server (s : Clientcmd.Server) : bool :=
  is_empty (Clientcmd.srvLocationOfOrigin s)
  && (Clientcmd.srvTimeout s =? 0)
  && (Clientcmd.srvMaxRetries s =? 0)
  && (Clientcmd.srvRetryInterval s =? 0)
  && is_empty (Clientcmd.Address s)
  && is_empty (Clientcmd.TLSServerName s)
  && negb (Clientcmd.InsecureSkipTLSVerify s)
  && is_empty (Clientcmd.CertificateAuthority s)
  && is_empty (Clientcmd.CertificateAuthorityData s).

Definition set_Address (s : Clientcmd.Server) (address : string)
  : Clientcmd.Server :=
  {| Clientcmd.srvLocationOfOrigin := Clientcmd.srvLocationOfOrigin s;
     Clientcmd.srvTimeout := Clientcmd.srvTimeout s;
     Clientcmd.srvMaxRetries := Clientcmd.srvMaxRetries s;
     Clientcmd.srvRetryInterval := Clientcmd.srvRetryInterval s;
     Clientcmd.Address := address;
     Clientcmd.TLSServerName := Clientcmd.TLSServerName s;
     Clientcmd.InsecureSkipTLSVerify := Clientcmd.InsecureSkipTLSVerify s;
     Clientcmd.CertificateAuthority := Clientcmd.CertificateAuthority s;
     Clientcmd.CertificateAuthorityData :=
       Clientcmd.CertificateAuthorityData s |}.

Definition with_Host (config : Rest.Config) (host : string) : Rest.Config :=
  {| Rest.Host := host; Rest.APIPath := Rest.APIPath config;
     Rest.content := Rest.content config;
     Rest.Username := Rest.Username config;
     Rest.Password := Rest.Password config;
     Rest.SecretID := Rest.SecretID config;
     Rest.SecretKey := Rest.SecretKey config;
     Rest.BearerToken := Rest.BearerToken config;
     Rest.BearerTokenFile := Rest.BearerTokenFile config;
     Rest.tls := Rest.tls config; Rest.UserAgent := Rest.UserAgent config;
     Rest.cfgTimeout := Rest.cfgTimeout config;
     Rest.MaxRetries := Rest.MaxRetries config;
     Rest.RetryInterval := Rest.RetryInterval config |}.

(** The literal [&restclient.Config{...}] of [ClientConfig]: the fields it
    does not name are zero. *)
Definition rest_config_of (user : Clientcmd.AuthInfo)
  (server : Clientcmd.Server) : Rest.Config :=
  {| Rest.Host := Clientcmd.Address server;
     Rest.APIPath := "";
     Rest.content :=
       {| Rest.ServiceName := ""; Rest.AcceptContentTypes := "";
          Rest.ContentType := ""; Rest.cfgGroupVersion := None;
          Rest.cfgNegotiator := None |};
     Rest.Username := Clientcmd.Username user;
     Rest.Password := Clientcmd.Password user;
     Rest.SecretID := Clientcmd.SecretID user;
     Rest.SecretKey := Clientcmd.SecretKey user;
     Rest.BearerToken := Clientcmd.Token user;
     Rest.BearerTokenFile := "";
     Rest.tls :=
       {| Rest.Insecure := Clientcmd.InsecureSkipTLSVerify server;
          Rest.ServerName := Clientcmd.TLSServerName server;
          Rest.CertFile := Clientcmd.ClientCertificate user;
          Rest.KeyFile := Clientcmd.ClientKey user;
          Rest.CAFile := Clientcmd.CertificateAuthority server;
          Rest.CertData :=
            bytes_of_string (Clientcmd.ClientCertificateData user);
          Rest.KeyData := bytes_of_string (Clientcmd.ClientKeyData user);
          Rest.CAData :=
            bytes_of_string (Clientcmd.CertificateAuthorityData server);
          Rest.NextProtos := [] |};
     Rest.UserAgent := "";
     Rest.cfgTimeout := Clientcmd.srvTimeout server;
     Rest.MaxRetries := Clientcmd.srvMaxRetries server;
     Rest.RetryInterval := Clientcmd.srvRetryInterval server |}.

Section WithWorld.
Variable cw : Clientcmd.World.
Variable w : Rest.World.
(** [url.ParseRequestURI]: the URL, its field [Opaque], and the error. *)
Variable url_ParseRequestURI : string -> Rest.URL_t * string * option error.

(** [validateServerInfo]. *)
Definition validateServerInfo (serverInfo : Clientcmd.Server)
  : list validation_error :=
  if is_zero_Server serverInfo then [ErrEmptyServer]
  else
    ((if nonempty (Clientcmd.CertificateAuthority serverInfo)
         && nonempty (Clientcmd.CertificateAuthorityData serverInfo)
      then [ErrCABoth] else [])
     ++ (if nonempty (Clientcmd.CertificateAuthority serverInfo) then
           match Clientcmd.FS_Open cw
                   (Clientcmd.CertificateAuthority serverInfo) with
           | Some e =>
               [ErrReadCA (Clientcmd.CertificateAuthority serverInfo) e]
           | None => []
           end
         else []))%list.

(** [DirectClientConfig.ConfirmUsable]. [getAuthInfo] and [getServer]
    dereference the two pointers of the configuration. *)
Definition ConfirmUsable (config : Clientcmd.Config)
  : outcome (option cmd_error) :=
  match Clientcmd.cAuthInfo config with
  | None => Panicked
  | Some authInfo =>
      match Clientcmd.cServer config with
      | None => Panicked
      | Some server =>
          let validationErrors :=
            (map AuthInfoError (Clientcmd.validateAuthInfo cw authInfo)
             ++ validateServerInfo server)%list in
          match validationErrors with
          | [ErrEmptyServer] =>
              Returned (newErrConfigurationInvalid [ErrEmptyConfig])
          | _ => Returned (newErrConfigurationInvalid validationErrors)
          end
      end
  end.

(** [DirectClientConfig.ClientConfig]. *)
Definition ClientConfig (config : Clientcmd.Config)
  : outcome (option Rest.Config * option cmd_error) :=
  match Clientcmd.cAuthInfo config with
  | None => Panicked
  | Some user =>
      match Clientcmd.cServer config with
      | None => Panicked
      | Some server =>
          match ConfirmUsable config with
          | Panicked => Panicked
          | Returned (Some e) => Returned (None, Some e)
          | Returned None =>
              let clientConfig := rest_config_of user server in
              match url_ParseRequestURI (Rest.Host clientConfig) with
              | (u, opaque, None) =>
                  if is_empty opaque && (1 <? len (Rest.Path u))
                  then
                    let u' :=
                      {| Rest.Scheme := Rest.Scheme u;
                         Rest.UHost := Rest.UHost u;
                         Rest.Path := Rest.Path u;
                         Rest.RawQuery := ""; Rest.Fragment := "" |} in
                    Returned
                      (Some (with_Host clientConfig (Rest.url_String w u')),
                       None)
                  else Returned (Some clientConfig, None)
              | (_, _, Some _) => Returned (Some clientConfig, None)
              end
          end
      end
  end.

(** [NewClientConfigFromBytes]: the configuration the [DirectClientConfig]
    wraps. *)
Definition NewClientConfigFromBytes (configBytes : bytes)
  : outcome (option Clientcmd.Config * option cmd_error) :=
  match Clientcmd.Load cw configBytes with
  | (_, Some e) => Returned (None, Some (Loading e))
  | (None, None) => Panicked
  | (Some config, None) => Returned (Some config, None)
  end.

(** [RESTConfigFromIAMConfig]. *)
Definition RESTConfigFromIAMConfig (configBytes : bytes)
  : outcome (option Rest.Config * option cmd_error) :=
  match NewClientConfigFromBytes configBytes with
  | Panicked => Panicked
  | Returned (_, Some e) => Returned (None, Some e)
  | Returned (None, None) => Panicked
  | Returned (Some config, None) => ClientConfig config
  end.

(** [BuildConfigFromFlags]. *)
Definition BuildConfigFromFlags (serverURL iamconfigPath : string)
  : outcome (option Rest.Config * option cmd_error) :=
  match Clientcmd.LoadFromFile cw iamconfigPath with
  | Panicked => Panicked
  | Returned (_, Some e) => Returned (None, Some (Loading e))
  | Returned (None, None) => Panicked
  | Returned (Some config, None) =>
      if 0 <? len serverURL then
        match Clientcmd.cServer config with
        | None => Panicked
        | Some server =>
            ClientConfig
              {| Clientcmd.APIVersion := Clientcmd.APIVersion config;
                 Clientcmd.cAuthInfo := Clientcmd.cAuthInfo config;
                 Clientcmd.cServer := Some (set_Address server serverURL) |}
        end
      else ClientConfig config
  end.

End WithWorld.

End DirectClientConfig.

(** ** The client sets: [apiserver/v1], [authz/v1], [iam] and [marmotedu] *)

Module Clientset.
Import GoLib.

Section WithWorld.
Variable w : Rest.World.
(** [v1.SchemeGroupVersion] of the packages [api/apiserver/v1] and
    [api/authz/v1], and [runtime.NewSimpleClientNegotiator()]. *)
Variable apiserver_SchemeGroupVersion : Rest.GroupVersion.
Variable authz_SchemeGroupVersion : Rest.GroupVersion.
Variable NewSimpleClientNegotiator : Rest.Negotiator.

(** [setConfigDefaults], the same in both packages but for the group
    version [gv]. *)
Definition setConfigDefaults (gv : Rest.GroupVersion) (config : Rest.Config)
  : Rest.Config :=
  {| Rest.Host := Rest.Host config; Rest.APIPath := "";
     Rest.content :=
       {| Rest.ServiceName := Rest.ServiceName (Rest.content config);
          Rest.AcceptContentTypes :=
            Rest.AcceptContentTypes (Rest.content config);
          Rest.ContentType := Rest.ContentType (Rest.content config);
          Rest.cfgGroupVersion := Some gv;
          Rest.cfgNegotiator := Some NewSimpleClientNegotiator |};
     Rest.Username := Rest.Username config;
     Rest.Password := Rest.Password config;
     Rest.SecretID := Rest.SecretID config;
     Rest.SecretKey := Rest.SecretKey config;
     Rest.BearerToken := Rest.BearerToken config;
     Rest.BearerTokenFile := Rest.BearerTokenFile config;
     Rest.tls := Rest.tls config;
     Rest.UserAgent :=
       if String.eqb (Rest.UserAgent config) ""
       then Rest.DefaultUserAgent w else Rest.UserAgent config;
     Rest.cfgTimeout := Rest.cfgTimeout config;
     Rest.MaxRetries := Rest.MaxRetries config;
     Rest.RetryInterval := Rest.RetryInterval config |}.

(** [NewForConfig] of a versioned client: the defaults go to a copy of the
    caller's configuration, so only the result is returned. *)
Definition NewForConfig (gv : Rest.GroupVersion) (c : Rest.Config)
  : option Rest.RESTClient * option error :=
  let config := setConfigDefaults gv c in
  match snd (Rest.RESTClientFor w config) with
  | (_, Some e) => (None, Some e)
  | (client, None) => (client, None)
  end.

Definition apiv1_NewForConfig (c : Rest.Config) :=
  NewForConfig apiserver_SchemeGroupVersion c.

Definition authzv1_NewForConfig (c : Rest.Config) :=
  NewForConfig authz_SchemeGroupVersion c.

(** [IamClient]. *)
Record IamClient : Type := {
  apiV1 : option Rest.RESTClient;
  authzV1 : option Rest.RESTClient
}.

(** [iam.NewForConfig]. *)
Definition iam_NewForConfig (c : Rest.Config)
  : option IamClient * option error :=
  match apiv1_NewForConfig c with
  | (_, Some e) => (None, Some e)
  | (api, None) =>
      match authzv1_NewForConfig c with
      | (_, Some e) => (None, Some e)
      | (authz, None) => (Some {| apiV1 := api; authzV1 := authz |}, None)
      end
  end.

(** [marmotedu.NewForConfig]: a [Clientset] holds the [IamClient]. *)
Definition marmotedu_NewForConfig (c : Rest.Config)
  : option IamClient * option error :=
  match iam_NewForConfig c with
  | (_, Some e) => (None, Some e)
  | (iam, None) => (iam, None)
  end.

End WithWorld.

End Clientset.

(** ** Path elements *)

Module CleanPaths.
Import GoLib.

(** A path element that [path.Clean] keeps as it is: not empty, not a
    dot or two, and with no slash in it. *)
Definition plain_segment (e : string) : Prop :=
  e <> "" /\ e <> "." /\ e <> ".." /\ Contains e "/" = false.

End CleanPaths.

(** ** Further stand-ins

    Other answers of the server, a parser for [url.ParseRequestURI], and
    a file system with three configuration files. *)

Module Scenario.
Import GoLib.

(** [Demo.world] with a server that answers every request with [status],
    the body [data] and the transport errors [errs]. *)
Definition answering (status : Z) (data : string) (errs : list string)
  : Rest.World :=
  {| Rest.Sign := Rest.Sign Demo.world;
     Rest.url_Parse := Rest.url_Parse Demo.world;
     Rest.url_Query := Rest.url_Query Demo.world;
     Rest.url_String := Rest.url_String Demo.world;
     Rest.Map_unicode_ToLower := Rest.Map_unicode_ToLower Demo.world;
     Rest.ReadFile := Rest.ReadFile Demo.world;
     Rest.DecodeString := Rest.DecodeString Demo.world;
     Rest.X509KeyPair := Rest.X509KeyPair Demo.world;
     Rest.sprintf_Config := Rest.sprintf_Config Demo.world;
     Rest.sprintf_TLS := Rest.sprintf_TLS Demo.world;
     Rest.Args0 := Rest.Args0 Demo.world;
     Rest.GitVersion := Rest.GitVersion Demo.world;
     Rest.GitCommit := Rest.GitCommit Demo.world;
     Rest.GOOS := Rest.GOOS Demo.world;
     Rest.GOARCH := Rest.GOARCH Demo.world;
     Rest.EndBytes :=
       fun _ => ({| Rest.StatusCode := status |}, bytes_of_string data, errs) |}.

(** [Demo.world] with a URL parser that finds the query [a=1&b=2] in
    every URI. *)
Definition with_query : Rest.World :=
  {| Rest.Sign := Rest.Sign Demo.world;
     Rest.url_Parse := Rest.url_Parse Demo.world;
     Rest.url_Query := fun _ => {[ "a" := ["1"]; "b" := ["2"] ]};
     Rest.url_String := Rest.url_String Demo.world;
     Rest.Map_unicode_ToLower := Rest.Map_unicode_ToLower Demo.world;
     Rest.ReadFile := Rest.ReadFile Demo.world;
     Rest.DecodeString := Rest.DecodeString Demo.world;
     Rest.X509KeyPair := Rest.X509KeyPair Demo.world;
     Rest.sprintf_Config := Rest.sprintf_Config Demo.world;
     Rest.sprintf_TLS := Rest.sprintf_TLS Demo.world;
     Rest.Args0 := Rest.Args0 Demo.world;
     Rest.GitVersion := Rest.GitVersion Demo.world;
     Rest.GitCommit := Rest.GitCommit Demo.world;
     Rest.GOOS := Rest.GOOS Demo.world;
     Rest.GOARCH := Rest.GOARCH Demo.world;
     Rest.EndBytes := Rest.EndBytes Demo.world |}.

(** A stand-in for [url.ParseRequestURI]: the empty string is an error,
    anything else is parsed by [Demo.parse]; no URL is opaque. *)
Definition parse_request_uri (s : string)
  : Rest.URL_t * string * option error :=
  if is_empty s then (Rest.empty_URL, "", Some (ErrForeign "empty url"))
  else (fst (Demo.parse s), "", snd (Demo.parse s)).

Definition admin_user : Clientcmd.AuthInfo :=
  {| Clientcmd.LocationOfOrigin := ""; Clientcmd.ClientCertificate := "";
     Clientcmd.ClientCertificateData := ""; Clientcmd.ClientKey := "";
     Clientcmd.ClientKeyData := ""; Clientcmd.Token := "";
     Clientcmd.Username := "admin"; Clientcmd.Password := "Admin@2021";
     Clientcmd.SecretID := ""; Clientcmd.SecretKey := "" |}.

Definition local_server : Clientcmd.Server :=
  {| Clientcmd.srvLocationOfOrigin := "";
     Clientcmd.srvTimeout := 10000000000; Clientcmd.srvMaxRetries := 3;
     Clientcmd.srvRetryInterval := 1000000000;
     Clientcmd.Address := "http://127.0.0.1:8080";
     Clientcmd.TLSServerName := "";
     Clientcmd.InsecureSkipTLSVerify := false;
     Clientcmd.CertificateAuthority := "";
     Clientcmd.CertificateAuthorityData := "" |}.

(** A server entry that names a certificate authority and also turns the
    verification of the server's certificate off. *)
Definition insecure_server : Clientcmd.Server :=
  {| Clientcmd.srvLocationOfOrigin := "";
     Clientcmd.srvTimeout := 0; Clientcmd.srvMaxRetries := 0;
     Clientcmd.srvRetryInterval := 0;
     Clientcmd.Address := "https://iam.example.com:8443";
     Clientcmd.TLSServerName := "";
     Clientcmd.InsecureSkipTLSVerify := true;
     Clientcmd.CertificateAuthority := "";
     Clientcmd.CertificateAuthorityData := "LS0tLS1CRUdJTg==" |}.

(** Three files: [empty.yaml] has no content, [admin.yaml] and
    [insecure.yaml] hold one document each, which the decoder stand-in
    turns into the user [admin_user] with one of the two servers. Every
    file can be opened. *)
Definition files : Clientcmd.World :=
  {| Clientcmd.FS_ReadFile :=
       fun name =>
         if String.eqb name "empty.yaml" then ([], None)
         else if String.eqb name "admin.yaml"
         then (bytes_of_string "admin", None)
         else if String.eqb name "insecure.yaml"
         then (bytes_of_string "insecure", None)
         else ([], Some (ErrForeign "no such file"));
     Clientcmd.FS_Open := fun _ => None;
     Clientcmd.yaml_Unmarshal :=
       fun data cfg =>
         if String.eqb (string_of_bytes data) "admin"
         then ({| Clientcmd.APIVersion := "v1";
                  Clientcmd.cAuthInfo := Some admin_user;
                  Clientcmd.cServer := Some local_server |}, None)
         else if String.eqb (string_of_bytes data) "insecure"
         then ({| Clientcmd.APIVersion := "v1";
                  Clientcmd.cAuthInfo := Some admin_user;
                  Clientcmd.cServer := Some insecure_server |}, None)
         else (cfg, Some (ErrForeign "yaml: unmarshal error")) |}.

(** The group versions of the two typed clients. *)
Definition apiserver_gv : Rest.GroupVersion :=
  {| Rest.Group := "iam.api"; Rest.Version := "v1" |}.

Definition authz_gv : Rest.GroupVersion :=
  {| Rest.Group := "iam.authz"; Rest.Version := "v1" |}.

End Scenario.

(** ** Facts about the string functions *)

Section StringFacts.
Import GoLib.

Lemma is_empty_true (s : string) : is_empty s = true <-> s = "".
Proof. destruct s; simpl; split; congruence. Qed.

Lemma nonempty_true (s : string) : nonempty s = true <-> s <> "".
Proof. unfold nonempty. destruct s; simpl; split; congruence. Qed.

Lemma nonempty_false (s : string) : nonempty s = false <-> s = "".
Proof. unfold nonempty. destruct s; simpl; split; congruence. Qed.

Lemma HasPrefix_spec (s p : string) :
  HasPrefix s p = true <-> exists t, s = p ++ t.
Proof.
  revert s. induction p as [|a p IH]; intros s; simpl.
  - split; [intros _; exists s; reflexivity | intros _; destruct s; reflexivity].
  - destruct s as [|b s].
    + split; [discriminate | intros [t Ht]; discriminate].
    + simpl. destruct (Ascii.eqb a b) eqn:E.
      * apply Ascii.eqb_eq in E. subst b. rewrite IH.
        split; intros [t Ht]; exists t;
          [rewrite Ht; reflexivity | injection Ht; auto].
      * apply Ascii.eqb_neq in E.
        split; [discriminate | intros [t Ht]; injection Ht; congruence].
Qed.

(** [strings.Contains s sub] holds exactly when [sub] occurs in [s]. *)
Lemma Contains_spec (s sub : string) :
  Contains s sub = true <-> exists a b, s = a ++ sub ++ b.
Proof.
  induction s as [|ch s IH].
  - change (Contains "" sub) with (HasPrefix "" sub || false).
    rewrite orb_false_r, HasPrefix_spec. split.
    + intros [t Ht]. exists "", t. exact Ht.
    + intros [[|x a] [b Hb]]; [exists b; exact Hb | discriminate].
  - change (Contains (String ch s) sub)
      with (HasPrefix (String ch s) sub || Contains s sub).
    rewrite orb_true_iff, HasPrefix_spec, IH. split.
    + intros [[t Ht] | (a & b & Hab)].
      * exists "", t. exact Ht.
      * exists (String ch a), b. rewrite Hab. reflexivity.
    + intros ([|x a] & b & Hab).
      * left. exists b. exact Hab.
      * right. exists a, b. injection Hab; auto.
Qed.

End StringFacts.

(** ** Facts about the request builder *)

Section BuilderFacts.
Import GoLib.
Variable w : Rest.World.

(** [SetHeader] writes the headers and nothing else. *)
Lemma SetHeader_frame key values r :
  Rest.SetHeader key values r
  = Rest.with_headers r (Rest.headers (Rest.SetHeader key values r)).
Proof. reflexivity. Qed.

(** The request [NewRequest] returns, but for its headers. *)
Lemma NewRequest_shape cl :
  exists h,
    Rest.NewRequest w cl
    = {| Rest.c := cl; Rest.timeout := 0; Rest.verb := "";
         Rest.pathPrefix :=
           match Rest.base cl with
           | Some b => path_Join ["/"; Rest.Path b; Rest.versionedAPIPath cl]
           | None => path_Join ["/"; Rest.versionedAPIPath cl]
           end;
         Rest.subpath := ""; Rest.params := ∅; Rest.headers := h;
         Rest.resource := ""; Rest.resourceName := "";
         Rest.subresource := "";
         Rest.err := if 1 <? Rest.authMethod (Rest.rcContent cl)
                     then Some ErrAuthMethods else None;
         Rest.body := None |}.
Proof.
  unfold Rest.NewRequest.
  destruct (1 <? Rest.authMethod (Rest.rcContent cl)).
  - eexists. reflexivity.
  - set (cc := Rest.rcContent cl).
    destruct (Rest.HasTokenAuth cc), (Rest.HasKeyAuth cc),
      (Rest.HasBasicAuth cc), (nonempty (Rest.ccAcceptContentTypes cc)),
      (nonempty (Rest.ccContentType cc)); eexists; reflexivity.
Qed.

Lemma NewRequest_err cl :
  Rest.err (Rest.NewRequest w cl)
  = if 1 <? Rest.authMethod (Rest.rcContent cl)
    then Some ErrAuthMethods else None.
Proof. destruct (NewRequest_shape cl) as [h ->]. reflexivity. Qed.

(** The latch: with an error recorded, each setter returns the request it
    was given. *)
Lemma setters_latched (r : Rest.Request) (e : error) :
  Rest.err r = Some e ->
  forall (segments : list string) (s t : string) (v : Obj) (d : Duration),
    Rest.Prefix segments r = r
    /\ Rest.Suffix segments r = r
    /\ Rest.Resource s r = r
    /\ Rest.SubResource segments r = r
    /\ Rest.Name s r = r
    /\ Rest.AbsPath segments r = Returned r
    /\ Rest.RequestURI w s r = r
    /\ Rest.Param s t r = r
    /\ Rest.VersionedParams v r = r
    /\ Rest.Timeout d r = r.
Proof.
  intros He segments s t v d.
  unfold Rest.Prefix, Rest.Suffix, Rest.Resource, Rest.SubResource,
    Rest.Name, Rest.AbsPath, Rest.RequestURI, Rest.Param,
    Rest.VersionedParams, Rest.Timeout.
  rewrite He. repeat split.
Qed.

(** [Do] never reads the error of the request. *)
Lemma Do_ignores_recorded_error (r : Rest.Request) (e : error) :
  Rest.Do w (Rest.with_err r e) = Rest.Do w r.
Proof. reflexivity. Qed.

End BuilderFacts.

Section PathSegments.
Import GoLib.

Lemma IsValidPathSegmentName_messages (name : string) :
  Rest.IsValidPathSegmentName name <> []
  <-> name = "." \/ name = ".."
      \/ (exists a b, name = a ++ "/" ++ b)
      \/ (exists a b, name = a ++ "%" ++ b).
Proof.
  rewrite <- !Contains_spec.
  unfold Rest.IsValidPathSegmentName, Rest.NameMayNotBe.
  cbn [Rest.first_illegal_name].
  destruct (String.eqb_spec name ".") as [->|Hdot].
  { split; [auto | discriminate]. }
  destruct (String.eqb_spec name "..") as [->|Hdots].
  { split; [auto | discriminate]. }
  unfold Rest.IsValidPathSegmentPrefix, Rest.NameMayNotContain.
  cbn [flat_map].
  destruct (Contains name "/"), (Contains name "%"); cbn;
    split; try discriminate; try congruence; auto; intuition congruence.
Qed.

(** A name that is not a valid segment is never the empty list of
    messages, and conversely: the two ways the code tests it. *)
Lemma IsValidPathSegmentName_cases (name : string) :
  Rest.IsValidPathSegmentName name = []
  \/ exists m ms, Rest.IsValidPathSegmentName name = m :: ms.
Proof. destruct (Rest.IsValidPathSegmentName name); eauto. Qed.

End PathSegments.

Section NameFacts.
Import GoLib.

(** C4 (amended). [IsValidPathSegmentName] returns messages exactly for
    the names ["."] and [".."] and for those that contain a slash or a
    percent sign. On a request without a recorded error, [Name] records
    an error exactly when the name is empty, a name was already set, or
    the name fails that validation; when it records none the request
    holds the given name, unchanged; when it records one the name of the
    request is left as it was, and the error recorded for a name that
    fails the validation holds the name and all the messages of the
    validation. On a request that already has an error [Name] changes
    nothing. *)
Theorem Name_records_error_on_fresh_request (name : string)
  (r : Rest.Request) :
  (Rest.IsValidPathSegmentName name <> []
   <-> name = "." \/ name = ".."
       \/ (exists a b, name = a ++ "/" ++ b)
       \/ (exists a b, name = a ++ "%" ++ b))
  /\ (Rest.err r = None ->
      (Rest.err (Rest.Name name r) <> None
       <-> name = "" \/ Rest.resourceName r <> ""
           \/ Rest.IsValidPathSegmentName name <> []))
  /\ (Rest.err r = None -> Rest.err (Rest.Name name r) = None ->
      Rest.resourceName (Rest.Name name r) = name)
  /\ (Rest.err r = None -> Rest.err (Rest.Name name r) <> None ->
      Rest.resourceName (Rest.Name name r) = Rest.resourceName r)
  /\ (Rest.err r = None -> name <> "" -> Rest.resourceName r = "" ->
      Rest.IsValidPathSegmentName name <> [] ->
      Rest.err (Rest.Name name r)
      = Some (ErrInvalidName name (Rest.IsValidPathSegmentName name)))
  /\ (Rest.err r <> None -> Rest.Name name r = r).
Proof.
  split; [apply IsValidPathSegmentName_messages|].
  unfold Rest.Name.
  destruct (Rest.err r) as [e|] eqn:He.
  { repeat split; try congruence. }
  destruct (is_empty name) eqn:Hn.
  { apply is_empty_true in Hn. subst name. cbn.
    repeat split; try congruence; auto. }
  assert (Hne : name <> "").
  { intros ->. discriminate. }
  destruct (nonempty (Rest.resourceName r)) eqn:Hs.
  { apply nonempty_true in Hs. cbn.
    repeat split; try congruence; auto. }
  apply nonempty_false in Hs.
  destruct (Rest.IsValidPathSegmentName name) as [|m ms] eqn:Hv; cbn;
    rewrite ?He; repeat split; try congruence; auto;
    intuition congruence.
Qed.

End NameFacts.

Section RoundTrips.
Import GoLib.
Variable w : Rest.World.




End RoundTrips.

Section TypedClients.
Import GoLib.
Variable w : Rest.World.









End TypedClients.

Section TypedClientsSpec.
Import GoLib.
Variable w : Rest.World.





(** The method and the URL the agent is given are those of the request. *)
Lemma Do_agent_method r :
  Rest.agMethod (Rest.Do_agent w r) = Rest.verb r
  /\ Rest.agUrl (Rest.Do_agent w r) = Rest.url_String w (Rest.URL w r).
Proof. split; reflexivity. Qed.



End TypedClientsSpec.

Section AuthStrategies.
Import GoLib.
Variable w : Rest.World.

(** [authMethod] counts the populated credential categories. *)
Lemma authMethod_count cc :
  Rest.authMethod cc
  = (if Rest.HasBasicAuth cc then 1 else 0)
    + (if Rest.HasTokenAuth cc then 1 else 0)
    + (if Rest.HasKeyAuth cc then 1 else 0).
Proof.
  unfold Rest.authMethod. cbn [fold_left].
  destruct (Rest.HasBasicAuth cc), (Rest.HasTokenAuth cc),
    (Rest.HasKeyAuth cc); reflexivity.
Qed.

Lemma SetHeader_one_lookup key value r k :
  Rest.headers (Rest.SetHeader key [value] r) !! k
  = if decide (CanonicalMIMEHeaderKey key = k) then Some [value]
    else Rest.headers r !! k.
Proof.
  unfold Rest.SetHeader, Rest.Header_Add, Rest.Header_Del, Values_Add.
  cbn [fold_left Rest.with_headers Rest.headers].
  rewrite lookup_delete_eq. cbn [default app].
  rewrite lookup_insert.
  destruct (decide (CanonicalMIMEHeaderKey key = k)) as [Heq|Hne];
    [reflexivity|].
  rewrite lookup_delete_ne by exact Hne. reflexivity.
Qed.

(** The [Authorization] header of a new request. *)
Lemma NewRequest_Authorization cl :
  let cc := Rest.rcContent cl in
  Rest.headers (Rest.NewRequest w cl) !! "Authorization"
  = if 1 <? Rest.authMethod cc then None
    else if Rest.HasTokenAuth cc
    then Some ["Bearer " ++ Rest.ccBearerToken cc]
    else if Rest.HasKeyAuth cc
    then Some ["Bearer " ++ Rest.Sign w (Rest.ccSecretID cc)
                 (Rest.ccSecretKey cc) "marmotedu-sdk-go"
                 (Rest.group cl ++ ".marmotedu.com")]
    else if Rest.HasBasicAuth cc
    then Some ["Basic " ++ Rest.basicAuth (Rest.ccUsername cc)
                 (Rest.ccPassword cc)]
    else None.
Proof.
  intros cc. unfold Rest.NewRequest. fold cc.
  destruct (1 <? Rest.authMethod cc); [reflexivity|].
  destruct (Rest.HasTokenAuth cc), (Rest.HasKeyAuth cc),
    (Rest.HasBasicAuth cc), (nonempty (Rest.ccAcceptContentTypes cc)),
    (nonempty (Rest.ccContentType cc));
    rewrite ?SetHeader_one_lookup; reflexivity.
Qed.

End AuthStrategies.

Section AuthValidation.
Import GoLib.
Variable cw : Clientcmd.World.

Lemma open_error_not_many mk file ms :
  (forall f e, mk f e <> ErrManyAuthMethods ms) ->
  ~ In (ErrManyAuthMethods ms) (Clientcmd.open_error cw mk file).
Proof.
  intros Hmk. unfold Clientcmd.open_error.
  destruct (nonempty file); [|intros []].
  destruct (Clientcmd.FS_Open cw file); [|intros []].
  intros [H|[]]. exact (Hmk _ _ H).
Qed.

(** The error for several authentication methods is reported exactly
    when [methods] has more than one element, and then it lists them. *)
Lemma validateAuthInfo_many_methods (a : Clientcmd.AuthInfo) ms :
  In (ErrManyAuthMethods ms) (Clientcmd.validateAuthInfo cw a)
  <-> (1 < length (Clientcmd.methods a))%nat /\ ms = Clientcmd.methods a.
Proof.
  unfold Clientcmd.validateAuthInfo.
  assert (Hve :
    In (ErrManyAuthMethods ms)
      (if (1 <? Z.of_nat (length (Clientcmd.methods a))) && negb false
       then [ErrManyAuthMethods (Clientcmd.methods a)] else [])
    <-> (1 < length (Clientcmd.methods a))%nat /\ ms = Clientcmd.methods a).
  { rewrite andb_true_r.
    destruct (1 <? Z.of_nat (length (Clientcmd.methods a))) eqn:E.
    - apply Z.ltb_lt in E. cbn. split.
      + intros [H|[]]. split; [lia | congruence].
      + intros [_ ->]. auto.
    - apply Z.ltb_ge in E. cbn. split; [intros [] | intros [H _]; lia]. }
  destruct (is_empty (Clientcmd.ClientCertificate a)
            || is_empty (Clientcmd.ClientCertificateData a)).
  - exact Hve.
  - rewrite in_app_iff, Hve. split; [|auto].
    intros [H|H]; [exact H|]. exfalso.
    repeat (apply in_app_or in H; destruct H as [H|H]);
      try (revert H; apply open_error_not_many; discriminate);
      repeat match type of H with
             | In _ (if ?b then _ else _) => destruct b
             end;
      cbn in H; intuition discriminate.
Qed.

(** The validator reports nothing exactly when [methods] has at most one
    element and the client certificate is not given both as a file and
    as data. *)
Lemma validateAuthInfo_nil (a : Clientcmd.AuthInfo) :
  Clientcmd.validateAuthInfo cw a = []
  <-> (length (Clientcmd.methods a) <= 1)%nat
      /\ (Clientcmd.ClientCertificate a = ""
          \/ Clientcmd.ClientCertificateData a = "").
Proof.
  unfold Clientcmd.validateAuthInfo. rewrite andb_true_r.
  destruct (is_empty (Clientcmd.ClientCertificate a)) eqn:Hc;
    [apply is_empty_true in Hc|];
    (destruct (is_empty (Clientcmd.ClientCertificateData a)) eqn:Hd;
     [apply is_empty_true in Hd|]); cbn [orb].
  1-3: destruct (1 <? Z.of_nat (length (Clientcmd.methods a))) eqn:E;
    [apply Z.ltb_lt in E | apply Z.ltb_ge in E];
    (split; [intros H; first [discriminate | split; [lia | auto]]
            | intros [H _]; first [reflexivity | lia]]).
  unfold nonempty. rewrite Hc, Hd. cbn [negb andb].
  split.
  - intros H. apply app_eq_nil in H. destruct H as [_ H].
    discriminate.
  - intros [_ [H|H]]; rewrite H in *; discriminate.
Qed.

End AuthValidation.

Section AuthSelection.
Import GoLib.
Variable w : Rest.World.
Variable cw : Clientcmd.World.

(** C1 (amended). [NewRequest] counts the populated credential
    categories: basic (a user name), token (a bearer token or a token
    file), key (a secret ID and a secret key). With more than one, the
    request carries the error and no [Authorization] header. With exactly
    one, it carries no error and the header is [Bearer <BearerToken>] for
    token authentication, [Bearer <signed token>] for key authentication
    and [Basic base64(username:password)] for basic authentication.
    [validateAuthInfo] counts its own methods (a token; a user name or a
    password; a secret ID or a secret key) and reports the error for
    several authentication methods exactly when more than one is
    populated; its other errors are about the client certificate, and it
    reports no error at all exactly when at most one method is populated
    and the client certificate is not given both as a file and as
    data. *)
Theorem auth_strategy_selection (cl : Rest.RESTClient)
  (a : Clientcmd.AuthInfo) :
  let cc := Rest.rcContent cl in
  let r := Rest.NewRequest w cl in
  Rest.authMethod cc
  = (if nonempty (Rest.ccUsername cc) then 1 else 0)
    + (if nonempty (Rest.ccBearerToken cc)
          || nonempty (Rest.ccBearerTokenFile cc) then 1 else 0)
    + (if nonempty (Rest.ccSecretID cc) && nonempty (Rest.ccSecretKey cc)
       then 1 else 0)
  /\ (1 < Rest.authMethod cc ->
      Rest.err r = Some ErrAuthMethods
      /\ Rest.headers r !! "Authorization" = None)
  /\ (Rest.authMethod cc = 1 ->
      Rest.err r = None
      /\ Rest.headers r !! "Authorization"
         = Some [if Rest.HasTokenAuth cc
                 then "Bearer " ++ Rest.ccBearerToken cc
                 else if Rest.HasKeyAuth cc
                 then "Bearer "
                      ++ Rest.Sign w (Rest.ccSecretID cc)
                           (Rest.ccSecretKey cc) "marmotedu-sdk-go"
                           (Rest.group cl ++ ".marmotedu.com")
                 else "Basic "
                      ++ EncodeToString
                           (bytes_of_string
                              (Rest.ccUsername cc ++ ":"
                               ++ Rest.ccPassword cc))])
  /\ (forall ms,
        In (ErrManyAuthMethods ms) (Clientcmd.validateAuthInfo cw a)
        <-> (1 < length (Clientcmd.methods a))%nat
            /\ ms = Clientcmd.methods a)
  /\ Z.of_nat (length (Clientcmd.methods a))
     = (if nonempty (Clientcmd.Token a) then 1 else 0)
       + (if nonempty (Clientcmd.Username a)
             || nonempty (Clientcmd.Password a) then 1 else 0)
       + (if nonempty (Clientcmd.SecretID a)
             || nonempty (Clientcmd.SecretKey a) then 1 else 0)
  /\ (Clientcmd.validateAuthInfo cw a = []
      <-> (length (Clientcmd.methods a) <= 1)%nat
          /\ (Clientcmd.ClientCertificate a = ""
              \/ Clientcmd.ClientCertificateData a = "")).
Proof.
  intros cc r.
  split; [apply authMethod_count|].
  split.
  { intros Hm. unfold r. rewrite NewRequest_err, NewRequest_Authorization.
    fold cc. apply Z.ltb_lt in Hm. rewrite Hm. auto. }
  split.
  { intros Hm. unfold r. rewrite NewRequest_err, NewRequest_Authorization.
    fold cc. rewrite Hm. cbn [Z.ltb Z.compare Pos.compare Pos.compare_cont].
    split; [reflexivity|].
    rewrite authMethod_count in Hm.
    destruct (Rest.HasTokenAuth cc), (Rest.HasKeyAuth cc),
      (Rest.HasBasicAuth cc); try reflexivity; discriminate. }
  split; [intros ms; apply validateAuthInfo_many_methods|].
  split; [|apply validateAuthInfo_nil].
  unfold Clientcmd.methods.
  destruct (nonempty (Clientcmd.Token a)),
    (nonempty (Clientcmd.Username a) || nonempty (Clientcmd.Password a)),
    (nonempty (Clientcmd.SecretID a) || nonempty (Clientcmd.SecretKey a));
    reflexivity.
Qed.

End AuthSelection.

(** A client with a user name and a password only gets the [Basic] header;
    one that also carries a bearer token gets the error. *)
Lemma auth_strategy_selection_witness :
  Rest.err (Rest.NewRequest Demo.world Demo.conflicting_client)
  = Some ErrAuthMethods
  /\ Rest.headers (Rest.NewRequest Demo.world Demo.basic_client)
     !! "Authorization"
     = Some ["Basic YWRtaW46QWRtaW5AMjAyMQ=="].
Proof.
  split.
  - apply (auth_strategy_selection Demo.world Demo.cworld
             Demo.conflicting_client Clientcmd.empty_AuthInfo).
    reflexivity.
  - apply (auth_strategy_selection Demo.world Demo.cworld
             Demo.basic_client Clientcmd.empty_AuthInfo).
    reflexivity.
Defined.

(** C1, as stated, fails on the validator: an [AuthInfo] with no
    authentication method at all, whose client certificate is given both as
    a file and as data, gets errors from [validateAuthInfo]. *)
Lemma validateAuthInfo_errors_without_methods :
  let a :=
    {| Clientcmd.LocationOfOrigin := "";
       Clientcmd.ClientCertificate := "client.pem";
       Clientcmd.ClientCertificateData := "LS0tLS1CRUdJTg==";
       Clientcmd.ClientKey := ""; Clientcmd.ClientKeyData := "";
       Clientcmd.Token := ""; Clientcmd.Username := "";
       Clientcmd.Password := ""; Clientcmd.SecretID := "";
       Clientcmd.SecretKey := "" |} in
  Clientcmd.methods a = []
  /\ Clientcmd.validateAuthInfo Demo.cworld a
     = [ErrClientCertBoth; ErrClientKeyMissing;
        ErrReadClientCert "client.pem" (ErrForeign "no such file")].
Proof. split; reflexivity. Qed.

Section QueryString.
Import GoLib.

Lemma string_app_assoc (a b c : string) : (a ++ b) ++ c = a ++ b ++ c.
Proof.
  induction a as [|ch a IH]; [reflexivity|].
  change (String ch ((a ++ b) ++ c) = String ch (a ++ b ++ c)).
  f_equal. exact IH.
Qed.

Lemma string_app_nil_r (a : string) : a ++ "" = a.
Proof.
  induction a as [|ch a IH]; [reflexivity|].
  change (String ch (a ++ "") = String ch a). f_equal. exact IH.
Qed.

(** A joined list holds each of its elements. *)
Lemma Join_holds (elems : list string) (sep e : string) :
  In e elems -> exists a b, Join elems sep = a ++ e ++ b.
Proof.
  induction elems as [|x elems IH]; [intros []|].
  intros [->|Hin].
  - destruct elems as [|y elems].
    + exists "", "". cbn [Join]. rewrite string_app_nil_r. reflexivity.
    + exists "", (sep ++ Join (y :: elems) sep). reflexivity.
  - destruct (IH Hin) as (a & b & Hab).
    destruct elems as [|y elems]; [destruct Hin|].
    exists (x ++ sep ++ a), b.
    change (Join (x :: y :: elems) sep)
      with (x ++ sep ++ Join (y :: elems) sep).
    rewrite Hab, !string_app_assoc. reflexivity.
Qed.

Lemma insert_sorted_In (k x : string) (l : list string) :
  In x (insert_sorted k l) <-> x = k \/ In x l.
Proof.
  induction l as [|y l IH]; cbn [insert_sorted].
  - cbn. intuition.
  - destruct (String.leb k y); cbn [In]; [intuition|].
    rewrite IH. intuition.
Qed.

Lemma sort_strings_In (x : string) (l : list string) :
  In x (sort_strings l) <-> In x l.
Proof.
  unfold sort_strings. induction l as [|y l IH]; cbn [fold_right In].
  - reflexivity.
  - rewrite insert_sorted_In, IH. intuition.
Qed.

(** The encoded query holds [key=value], escaped, for every value of
    every key. *)
Lemma Values_Encode_holds (m : gmap string (list string)) (k v : string) :
  In v (default [] (m !! k)) ->
  exists a b,
    Values_Encode m = a ++ (QueryEscape k ++ "=" ++ QueryEscape v) ++ b.
Proof.
  intros Hv. unfold Values_Encode. apply Join_holds.
  apply in_flat_map. exists k. split.
  - apply sort_strings_In.
    destruct (m !! k) as [vs|] eqn:Hk; [|destruct Hv].
    apply in_map_iff. exists (k, vs). split; [reflexivity|].
    apply list_elem_of_In. apply elem_of_map_to_list. exact Hk.
  - apply in_map_iff. exists v. auto.
Qed.

End QueryString.

Section QueryFacts.
Import GoLib.
Variable w : Rest.World.

(** The values a [url.Values] holds under a key. *)
Lemma fold_Add_lookup (key : string) (values : list string)
  (q : gmap string (list string)) (k : string) :
  fold_left (fun q value => Values_Add key value q) values q !! k
  = if decide (k = key)
    then match values with
         | [] => q !! k
         | _ :: _ => Some (default [] (q !! key) ++ values)%list
         end
    else q !! k.
Proof.
  revert q. induction values as [|v vs IH]; intros q; cbn [fold_left].
  - destruct (decide (k = key)); reflexivity.
  - rewrite IH. unfold Values_Add.
    destruct (decide (k = key)) as [->|Hne].
    + rewrite !lookup_insert_eq. cbn [from_option id].
      destruct vs as [|v' vs]; [reflexivity|].
      rewrite <- app_assoc. reflexivity.
    + rewrite lookup_insert_ne by congruence. reflexivity.
Qed.

Lemma copy_params_lookup (m : gmap string (list string)) (k : string) :
  Rest.copy_params m !! k
  = match m !! k with
    | Some (v :: vs) => Some (v :: vs)
    | _ => None
    end.
Proof.
  unfold Rest.copy_params. revert k.
  apply (map_fold_weak_ind
           (fun (q m : gmap string (list string)) =>
              forall k, q !! k = match m !! k with
                                 | Some (v :: vs) => Some (v :: vs)
                                 | _ => None
                                 end)).
  - intros k. rewrite !lookup_empty. reflexivity.
  - intros i x m' q Hi IH k. rewrite fold_Add_lookup.
    destruct (decide (k = i)) as [->|Hne].
    + rewrite lookup_insert_eq. rewrite !IH, Hi.
      destruct x; reflexivity.
    + rewrite lookup_insert_ne by congruence. apply IH.
Qed.

(** Copying keeps the values of every key. *)
Lemma copy_params_values (m : gmap string (list string)) (k : string) :
  default [] (Rest.copy_params m !! k) = default [] (m !! k).
Proof.
  rewrite copy_params_lookup. destruct (m !! k) as [[|v vs]|]; reflexivity.
Qed.

Lemma Param_adds (k v : string) (r : Rest.Request) :
  Rest.err r = None ->
  default [] (Rest.params (Rest.Param k v r) !! k)
  = (default [] (Rest.params r !! k) ++ [v])%list.
Proof.
  intros He. unfold Rest.Param, Rest.setParam, Values_Add. rewrite He.
  cbn [Rest.params Rest.with_params]. rewrite lookup_insert_eq. reflexivity.
Qed.

(** C2 (amended). The path of the assembled URL is the path prefix,
    joined with the lowercased resource when a resource is set, and
    further joined with the resource name, the subresource and the
    subpath when one of them is not empty. The query string is the
    encoding of the parameters of the request: under every key other than
    [timeout], and under [timeout] too when the timeout is zero, exactly
    the values added by [Param] and [setParam]; when the timeout is not
    zero the key [timeout] holds the string form of the duration and
    nothing else, whatever was added under that key. Every value the
    query holds under a key stands in the query string as [key=value],
    escaped. *)
Theorem URL_path_and_query (r : Rest.Request) :
  Rest.Path (Rest.URL w r)
  = (let p :=
       if nonempty (Rest.resource r)
       then path_Join [Rest.pathPrefix r;
                       ToLower (Rest.Map_unicode_ToLower w)
                         (Rest.resource r)]
       else Rest.pathPrefix r in
     if nonempty (Rest.resourceName r) || nonempty (Rest.subpath r)
        || nonempty (Rest.subresource r)
     then path_Join [p; Rest.resourceName r; Rest.subresource r;
                     Rest.subpath r]
     else p)
  /\ Rest.RawQuery (Rest.URL w r) = Values_Encode (Rest.URL_query r)
  /\ (forall k,
        k <> "timeout" \/ Rest.timeout r = 0 ->
        default [] (Rest.URL_query r !! k)
        = default [] (Rest.params r !! k))
  /\ (Rest.timeout r <> 0 ->
      Rest.URL_query r !! "timeout"
      = Some [Duration_String (Rest.timeout r)])
  /\ (forall k v r0,
        Rest.err r0 = None ->
        default [] (Rest.params (Rest.Param k v r0) !! k)
        = (default [] (Rest.params r0 !! k) ++ [v])%list)
  /\ (forall k v,
        In v (default [] (Rest.URL_query r !! k)) ->
        exists a b,
          Rest.RawQuery (Rest.URL w r)
          = a ++ (QueryEscape k ++ "=" ++ QueryEscape v) ++ b).
Proof.
  split; [reflexivity|]. split; [reflexivity|].
  split; [|split; [|split; [|intros k v; apply Values_Encode_holds]]];
    unfold Rest.URL_query.
  - intros k Hk.
    destruct (Rest.timeout r =? 0) eqn:Ht; cbn [negb].
    + apply copy_params_values.
    + apply Z.eqb_neq in Ht. destruct Hk as [Hk|Hk]; [|contradiction].
      unfold Values_Set. rewrite lookup_insert_ne by congruence.
      apply copy_params_values.
  - intros Ht. apply Z.eqb_neq in Ht. rewrite Ht. cbn [negb].
    unfold Values_Set. apply lookup_insert_eq.
  - intros k v r0. apply Param_adds.
Qed.

End QueryFacts.

(** A request with the parameter [a=b c] and a timeout of two seconds;
    the resource [Users] is lowercased. *)
Lemma URL_path_and_query_witness :
  let r := Rest.Timeout 2000000000
             (Rest.Param "a" "b c"
                (Rest.Name "alice"
                   (Rest.Resource "Users"
                      (Rest.Get Demo.world Demo.basic_client)))) in
  Rest.Path (Rest.URL Demo.world r) = "/v1/users/alice"
  /\ Rest.RawQuery (Rest.URL Demo.world r) = "a=b+c&timeout=2s"
  /\ default [] (Rest.URL_query r !! "a") = ["b c"]
  /\ Rest.URL_query r !! "timeout" = Some ["2s"].
Proof.
  intros r.
  destruct (URL_path_and_query Demo.world r) as (Hp & Hq & Hk & Ht & _ & _).
  split; [rewrite Hp; reflexivity|].
  split; [rewrite Hq; reflexivity|].
  split; [rewrite (Hk "a") by (left; discriminate); reflexivity|].
  rewrite Ht by discriminate. reflexivity.
Defined.

(** C2, as stated, fails: a parameter added under the key [timeout] is not
    in the query string of a request that has a timeout. *)
Lemma URL_drops_timeout_parameter :
  let r := Rest.Timeout 2000000000
             (Rest.Param "timeout" "30"
                (Rest.Get Demo.world Demo.basic_client)) in
  In "30" (default [] (Rest.params r !! "timeout"))
  /\ Rest.URL_query r !! "timeout" = Some ["2s"]
  /\ ~ In "30" (default [] (Rest.URL_query r !! "timeout"))
  /\ Rest.RawQuery (Rest.URL Demo.world r) = "timeout=2s".
Proof.
  cbv zeta. split; [vm_compute; auto|]. split; [reflexivity|].
  split; [|reflexivity].
  vm_compute. intros [H|[]]. discriminate.
Qed.

Section TransportSecurity.
Import GoLib.
Variable w : Rest.World.

(** [LoadTLSFiles] writes the three data fields and nothing else. *)
Lemma LoadTLSFiles_frame (cfg : Rest.Config) :
  let c1 := fst (Rest.LoadTLSFiles w cfg) in
  Rest.Insecure (Rest.tls c1) = Rest.Insecure (Rest.tls cfg)
  /\ Rest.ServerName (Rest.tls c1) = Rest.ServerName (Rest.tls cfg)
  /\ Rest.NextProtos (Rest.tls c1) = Rest.NextProtos (Rest.tls cfg)
  /\ Rest.MaxRetries c1 = Rest.MaxRetries cfg
  /\ Rest.RetryInterval c1 = Rest.RetryInterval cfg
  /\ Rest.cfgTimeout c1 = Rest.cfgTimeout cfg.
Proof.
  unfold Rest.LoadTLSFiles.
  destruct (Rest.dataFromSliceOrFile w _ _) as [ca [e1|]];
    [cbn; auto 10|].
  destruct (Rest.dataFromSliceOrFile w _ _) as [cert [e2|]];
    [cbn; auto 10|].
  destruct (Rest.dataFromSliceOrFile w _ _) as [key e3].
  cbn. auto 10.
Qed.

(** [TLSConfigFor] leaves the retry policy and the timeout of the
    configuration alone. *)
Lemma TLSConfigFor_frame (cfg : Rest.Config) :
  let c1 := fst (Rest.TLSConfigFor w cfg) in
  Rest.MaxRetries c1 = Rest.MaxRetries cfg
  /\ Rest.RetryInterval c1 = Rest.RetryInterval cfg
  /\ Rest.cfgTimeout c1 = Rest.cfgTimeout cfg.
Proof.
  unfold Rest.TLSConfigFor.
  destruct (negb _); [cbn; auto|].
  destruct (Rest.HasCA (Rest.tls cfg) && Rest.Insecure (Rest.tls cfg));
    [cbn; auto|].
  pose proof (LoadTLSFiles_frame cfg) as H. cbv zeta in H.
  destruct (Rest.LoadTLSFiles w cfg) as [c1 [e|]]; cbn [fst] in *;
    [tauto|].
  destruct (Rest.HasCertAuth (Rest.tls c1)); [|cbn; tauto].
  destruct (Rest.X509KeyPair w _ _) as [cert [e|]]; cbn; tauto.
Qed.

(** C5. [TLSConfigFor] returns no TLS configuration and no error when the
    client configuration asks for no transport security; it returns an
    error when a source of root certificates and the insecure flag are
    both set; and a TLS configuration it returns has minimum version
    TLS 1.2, [InsecureSkipVerify] equal to the insecure flag, and the
    configured server name. *)
Theorem TLSConfigFor_spec (cfg : Rest.Config) :
  (Rest.HasCA (Rest.tls cfg) = false ->
   Rest.HasCertAuth (Rest.tls cfg) = false ->
   Rest.Insecure (Rest.tls cfg) = false ->
   Rest.ServerName (Rest.tls cfg) = "" ->
   Rest.TLSConfigFor w cfg = (cfg, (None, None)))
  /\ ((Rest.CAData (Rest.tls cfg) <> [] \/ Rest.CAFile (Rest.tls cfg) <> "") ->
      Rest.Insecure (Rest.tls cfg) = true ->
      Rest.TLSConfigFor w cfg = (cfg, (None, Some ErrCAWithInsecure)))
  /\ (forall cfg' t e,
        Rest.TLSConfigFor w cfg = (cfg', (Some t, e)) ->
        e = None
        /\ Rest.MinVersion t = Rest.VersionTLS12
        /\ Rest.VersionTLS12 = 0x0303
        /\ Rest.InsecureSkipVerify t = Rest.Insecure (Rest.tls cfg)
        /\ Rest.tlsServerName t = Rest.ServerName (Rest.tls cfg)).
Proof.
  split; [|split].
  - intros Hca Hcert Hins Hname. unfold Rest.TLSConfigFor.
    rewrite Hca, Hcert, Hins, Hname. reflexivity.
  - intros Hsrc Hins. unfold Rest.TLSConfigFor.
    assert (Hca : Rest.HasCA (Rest.tls cfg) = true).
    { unfold Rest.HasCA. apply orb_true_iff.
      destruct Hsrc as [H|H].
      - left. destruct (Rest.CAData (Rest.tls cfg)); [congruence|reflexivity].
      - right. apply nonempty_true. exact H. }
    rewrite Hca, Hins. reflexivity.
  - intros cfg' t e. unfold Rest.TLSConfigFor.
    destruct (negb _); [discriminate|].
    destruct (Rest.HasCA (Rest.tls cfg) && Rest.Insecure (Rest.tls cfg));
      [discriminate|].
    pose proof (LoadTLSFiles_frame cfg) as H. cbv zeta in H.
    destruct (Rest.LoadTLSFiles w cfg) as [c1 [e1|]]; cbn [fst] in H;
      [discriminate|].
    destruct H as (Hins & Hname & _).
    destruct (Rest.HasCertAuth (Rest.tls c1)).
    + destruct (Rest.X509KeyPair w _ _) as [cert [e2|]]; [discriminate|].
      intros Heq. injection Heq as <- <- <-. cbn. auto.
    + intros Heq. injection Heq as <- <- <-. cbn. auto.
Qed.

(** [defaultServerURLFor] returns a URL or an error. *)
Lemma defaultServerURLFor_url_or_error (cfg : Rest.Config) :
  (exists u versioned,
      Rest.defaultServerURLFor w cfg = (Some u, versioned, None))
  \/ (exists e, Rest.defaultServerURLFor w cfg = (None, "", Some e)).
Proof.
  unfold Rest.defaultServerURLFor, Rest.DefaultServerURL.
  destruct (Rest.cfgGroupVersion (Rest.content cfg)) as [gv|];
    destruct (Rest.url_Parse w (Rest.Host cfg)) as [hostURL e];
    destruct (bool_decide (e <> None) || is_empty (Rest.Scheme hostURL)
              || is_empty (Rest.UHost hostURL)); eauto;
    destruct (Rest.url_Parse w _) as [hostURL' [e'|]]; eauto;
    destruct (nonempty (Rest.Path hostURL')
              && negb (String.eqb (Rest.Path hostURL') "/")); eauto.
Qed.

End TransportSecurity.

(** A configuration without transport security, one with a CA file and the
    insecure flag, and one that only names the server. *)
Lemma TLSConfigFor_spec_witness :
  let insecure_ca :=
    Rest.with_tls Demo.config
      {| Rest.Insecure := true; Rest.ServerName := ""; Rest.CertFile := "";
         Rest.KeyFile := ""; Rest.CAFile := "ca.pem"; Rest.CertData := [];
         Rest.KeyData := []; Rest.CAData := []; Rest.NextProtos := [] |} in
  let named :=
    Rest.with_tls Demo.config
      {| Rest.Insecure := false; Rest.ServerName := "iam.example.com";
         Rest.CertFile := ""; Rest.KeyFile := ""; Rest.CAFile := "";
         Rest.CertData := []; Rest.KeyData := []; Rest.CAData := [];
         Rest.NextProtos := [] |} in
  Rest.TLSConfigFor Demo.world Demo.config = (Demo.config, (None, None))
  /\ Rest.TLSConfigFor Demo.world insecure_ca
     = (insecure_ca, (None, Some ErrCAWithInsecure))
  /\ (exists t,
        snd (Rest.TLSConfigFor Demo.world named) = (Some t, None)
        /\ Rest.MinVersion t = 771
        /\ Rest.InsecureSkipVerify t = false
        /\ Rest.tlsServerName t = "iam.example.com").
Proof.
  intros insecure_ca named.
  split; [|split].
  - apply (TLSConfigFor_spec Demo.world Demo.config); reflexivity.
  - apply (TLSConfigFor_spec Demo.world insecure_ca).
    + right. discriminate.
    + reflexivity.
  - destruct (TLSConfigFor_spec Demo.world named) as (_ & _ & H).
    eexists. split; [reflexivity|].
    destruct (H named _ None eq_refl) as (_ & Hmin & Hv & Hi & Hs).
    split; [exact Hmin|]. split; [exact Hi | exact Hs].
Defined.

Section RetryPolicy.
Import GoLib.
Variable w : Rest.World.

(** C8. The client that [RESTClientFor] builds for a configuration it
    accepts has an agent whose retry policy is enabled with
    [config.MaxRetries] retries at interval [config.RetryInterval], for
    the status 500 and no other; [Do] hands the request to that agent
    once. *)
Theorem RESTClientFor_retry_policy (config config' : Rest.Config)
  (cl : Rest.RESTClient) (e : option error) :
  Rest.RESTClientFor w config = (config', (Some cl, e)) ->
  Rest.agRetryable (Rest.Client cl)
  = {| Rest.RetryableStatus := [500];
       Rest.RetryerTime := Rest.RetryInterval config;
       Rest.RetryerCount := Rest.MaxRetries config;
       Rest.Attempt := 0;
       Rest.Enable := true |}
  /\ (forall r,
        Rest.c r = cl ->
        Rest.agRetryable (Rest.Do_agent w r)
        = Rest.agRetryable (Rest.Client cl)).
Proof.
  unfold Rest.RESTClientFor.
  destruct (Rest.cfgGroupVersion (Rest.content config)) as [gv|];
    [|discriminate].
  destruct (Rest.cfgNegotiator (Rest.content config)) as [neg|];
    [|discriminate].
  destruct (Rest.defaultServerURLFor w config) as [[[baseURL|] versioned] [e0|]];
    try discriminate.
  pose proof (TLSConfigFor_frame w config) as H. cbv zeta in H.
  destruct (Rest.TLSConfigFor w config) as [c1 [tlsConfig [e1|]]];
    [discriminate|].
  cbn [fst] in H. destruct H as (Hmax & Hint & _).
  unfold Rest.NewRESTClient. intros Heq.
  injection Heq as _ <- _. cbn. rewrite Hmax, Hint.
  split; [reflexivity|]. intros r ->. reflexivity.
Qed.

End RetryPolicy.

(** The configuration of the examples is accepted, with three retries one
    second apart. *)
Lemma RESTClientFor_retry_policy_witness :
  exists cl,
    snd (Rest.RESTClientFor Demo.world Demo.config) = (Some cl, None)
    /\ Rest.agRetryable (Rest.Client cl)
       = {| Rest.RetryableStatus := [500]; Rest.RetryerTime := 1000000000;
            Rest.RetryerCount := 3; Rest.Attempt := 0;
            Rest.Enable := true |}.
Proof.
  eexists. split; [reflexivity|].
  apply (RESTClientFor_retry_policy Demo.world Demo.config Demo.config _ None).
  reflexivity.
Defined.

Section Redaction.
Import GoLib.
Variable w : Rest.World.

Lemma redact_same (s t : string) :
  nonempty s = nonempty t -> Rest.redact s = Rest.redact t.
Proof.
  unfold Rest.redact. intros H. rewrite H.
  destruct (nonempty t) eqn:E; [reflexivity|].
  apply nonempty_false in E. apply nonempty_false in H. congruence.
Qed.

(** What [Config.String] hands to the printer does not depend on the
    secrets, beyond their being empty or not. *)
Lemma sanitizedConfig_credentials (cfg : Rest.Config) (p t k : string) :
  nonempty p = nonempty (Rest.Password cfg) ->
  nonempty t = nonempty (Rest.BearerToken cfg) ->
  nonempty k = nonempty (Rest.SecretKey cfg) ->
  Rest.sanitizedConfig (Rest.with_credentials cfg p t k)
  = Rest.sanitizedConfig cfg.
Proof.
  intros Hp Ht Hk. unfold Rest.sanitizedConfig, Rest.CopyConfig. cbn.
  rewrite (redact_same _ _ Hp), (redact_same _ _ Ht), (redact_same _ _ Hk).
  reflexivity.
Qed.

Lemma sanitizedTLS_data (t : Rest.TLSClientConfig) (cert key : bytes) :
  Rest.nonempty_bytes cert = Rest.nonempty_bytes (Rest.CertData t) ->
  Rest.nonempty_bytes key = Rest.nonempty_bytes (Rest.KeyData t) ->
  Rest.sanitizedTLSClientConfig
    (Rest.with_KeyData (Rest.with_CertData t cert) key)
  = Rest.sanitizedTLSClientConfig t.
Proof.
  intros Hc Hk. unfold Rest.sanitizedTLSClientConfig. cbn.
  rewrite Hc, Hk.
  destruct (Rest.CertData t), (Rest.KeyData t), cert, key;
    try discriminate; reflexivity.
Qed.

(** C9. What [Config.String] and [Config.GoString] print is a function of
    a copy in which every non-empty [Password], [BearerToken] and
    [SecretKey] has been replaced by the redaction marker: two
    configurations that differ only in the values of these fields print
    the same. Likewise [TLSClientConfig.String] prints a copy in which
    non-empty [CertData] and [KeyData] have been replaced by markers, and
    two TLS configurations that differ only in these bytes print the
    same. *)
Theorem printing_hides_credentials (cfg : Rest.Config) (p t k : string)
  (tl : Rest.TLSClientConfig) (cert key : bytes) :
  nonempty p = nonempty (Rest.Password cfg) ->
  nonempty t = nonempty (Rest.BearerToken cfg) ->
  nonempty k = nonempty (Rest.SecretKey cfg) ->
  Rest.nonempty_bytes cert = Rest.nonempty_bytes (Rest.CertData tl) ->
  Rest.nonempty_bytes key = Rest.nonempty_bytes (Rest.KeyData tl) ->
  Rest.Config_String w (Some (Rest.with_credentials cfg p t k))
  = Rest.Config_String w (Some cfg)
  /\ Rest.Config_GoString w (Some (Rest.with_credentials cfg p t k))
     = Rest.Config_GoString w (Some cfg)
  /\ Rest.Config_String w (Some cfg)
     = Rest.sprintf_Config w (Rest.sanitizedConfig cfg)
  /\ Rest.Password (Rest.sanitizedConfig cfg)
     = (if nonempty (Rest.Password cfg) then "--- REDACTED ---" else "")
  /\ Rest.BearerToken (Rest.sanitizedConfig cfg)
     = (if nonempty (Rest.BearerToken cfg) then "--- REDACTED ---" else "")
  /\ Rest.SecretKey (Rest.sanitizedConfig cfg)
     = (if nonempty (Rest.SecretKey cfg) then "--- REDACTED ---" else "")
  /\ Rest.TLS_String w (Rest.with_KeyData (Rest.with_CertData tl cert) key)
     = Rest.TLS_String w tl
  /\ Rest.TLS_String w tl
     = Rest.sprintf_TLS w (Rest.sanitizedTLSClientConfig tl)
  /\ Rest.CertData (Rest.sanitizedTLSClientConfig tl)
     = (if Rest.nonempty_bytes (Rest.CertData tl)
        then bytes_of_string "--- TRUNCATED ---" else [])
  /\ Rest.KeyData (Rest.sanitizedTLSClientConfig tl)
     = (if Rest.nonempty_bytes (Rest.KeyData tl)
        then bytes_of_string "--- REDACTED ---" else []).
Proof.
  intros Hp Ht Hk Hc Hky.
  unfold Rest.Config_GoString, Rest.Config_String, Rest.TLS_String.
  rewrite (sanitizedConfig_credentials cfg p t k Hp Ht Hk).
  rewrite (sanitizedTLS_data tl cert key Hc Hky).
  repeat split.
  - cbn. unfold Rest.redact.
    destruct (Rest.Password cfg); reflexivity.
  - cbn. unfold Rest.redact.
    destruct (Rest.BearerToken cfg); reflexivity.
  - cbn. unfold Rest.redact.
    destruct (Rest.SecretKey cfg); reflexivity.
  - cbn. destruct (Rest.CertData tl); reflexivity.
  - cbn. destruct (Rest.KeyData tl); reflexivity.
Qed.

End Redaction.

(** Two configurations with different passwords, printed by a printer that
    shows every field, give the same text. *)
Lemma printing_hides_credentials_witness :
  Rest.Config_String Demo.world
    (Some (Rest.with_credentials Demo.config "hunter2" "" ""))
  = Rest.Config_String Demo.world (Some Demo.config)
  /\ Rest.Config_String Demo.world (Some Demo.config)
     = "&rest.Config{Host:http://127.0.0.1:8080, Username:admin, Password:--- REDACTED ---, SecretID:, SecretKey:, BearerToken:}".
Proof.
  split; [|reflexivity].
  apply (printing_hides_credentials Demo.world Demo.config "hunter2" "" ""
           Demo.no_tls [] []); reflexivity.
Defined.

Section UserAgentFacts.
Import GoLib.
Variable w : Rest.World.

(** [before_dash s] is the part of [s] in front of its first dash. *)
Lemma before_dash_prefix (s : string) :
  exists rest, s = before_dash s ++ rest
               /\ (rest = "" \/ exists rest', rest = "-" ++ rest').
Proof.
  induction s as [|ch s (rest & Hs & Hrest)]; cbn [before_dash].
  - exists "". auto.
  - destruct (Ascii.eqb_spec ch "-") as [->|Hne].
    + exists (String "-" s). split; [reflexivity|]. right. exists s.
      reflexivity.
    + exists rest. split; [|exact Hrest].
      change (String ch s = String ch (before_dash s ++ rest)).
      f_equal. exact Hs.
Qed.

Lemma before_dash_no_dash (s : string) :
  Contains (before_dash s) "-" = false.
Proof.
  induction s as [|ch s IH]; cbn [before_dash]; [reflexivity|].
  destruct (Ascii.eqb_spec ch "-") as [->|Hne]; [reflexivity|].
  change (Contains (String ch (before_dash s)) "-")
    with (HasPrefix (String ch (before_dash s)) "-"
          || Contains (before_dash s) "-").
  rewrite IH, orb_false_r.
  change (HasPrefix (String ch (before_dash s)) "-")
    with (if Ascii.eqb "-" ch then HasPrefix (before_dash s) "" else false).
  destruct (Ascii.eqb_spec "-" ch) as [<-|_]; [contradiction|reflexivity].
Qed.

Lemma take_prefix (n : nat) (s : string) :
  exists rest, s = take n s ++ rest.
Proof.
  revert s. induction n as [|n IH]; intros s.
  - exists s. destruct s; reflexivity.
  - destruct s as [|ch s]; [exists ""; reflexivity|].
    destruct (IH s) as [rest Hrest]. exists rest.
    change (String ch s = String ch (take n s ++ rest)).
    f_equal. exact Hrest.
Qed.

Lemma take_length (n : nat) (s : string) :
  (n <= String.length s)%nat -> String.length (take n s) = n.
Proof.
  revert s. induction n as [|n IH]; intros s Hn.
  - destruct s; reflexivity.
  - destruct s as [|ch s]; cbn in *; [lia|]. rewrite IH; [reflexivity|lia].
Qed.

(** C7. The User-Agent string is [command/version (os/arch) iam/commit]:
    the command is the base name of the path of the program, or
    [unknown] when that path is empty; the version is the git version up
    to its first dash, or [unknown] when it is empty; the commit is the
    first seven bytes of the git hash when it is longer than that, the
    hash itself when it is not, or [unknown] when it is empty. *)
Theorem DefaultUserAgent_format :
  exists command version commit,
    Rest.DefaultUserAgent w
    = command ++ "/" ++ version ++ " (" ++ Rest.GOOS w ++ "/"
      ++ Rest.GOARCH w ++ ") iam/" ++ commit
    /\ (Rest.Args0 w = "" -> command = "unknown")
    /\ (Rest.Args0 w <> "" -> command = Base (Rest.Args0 w))
    /\ (Rest.GitVersion w = "" -> version = "unknown")
    /\ (Rest.GitVersion w <> "" ->
        (exists rest,
            Rest.GitVersion w = version ++ rest
            /\ (rest = "" \/ exists rest', rest = "-" ++ rest'))
        /\ ~ (exists a b, version = a ++ "-" ++ b))
    /\ (Rest.GitCommit w = "" -> commit = "unknown")
    /\ (Rest.GitCommit w <> "" ->
        (String.length (Rest.GitCommit w) <= 7)%nat ->
        commit = Rest.GitCommit w)
    /\ ((7 < String.length (Rest.GitCommit w))%nat ->
        String.length commit = 7%nat
        /\ exists rest, Rest.GitCommit w = commit ++ rest).
Proof.
  exists (Rest.adjustCommand (Rest.Args0 w)),
    (Rest.adjustVersion (Rest.GitVersion w)),
    (Rest.adjustCommit (Rest.GitCommit w)).
  split; [reflexivity|].
  unfold Rest.adjustCommand, Rest.adjustVersion, Rest.adjustCommit, len.
  repeat split.
  - intros ->. reflexivity.
  - intros H. apply nonempty_true in H. unfold nonempty in H.
    destruct (is_empty (Rest.Args0 w)); [discriminate|reflexivity].
  - intros ->. reflexivity.
  - destruct (Rest.GitVersion w) eqn:E; [contradiction|].
    cbn [is_empty]. apply before_dash_prefix.
  - destruct (Rest.GitVersion w) eqn:E; [contradiction|].
    cbn [is_empty]. intros Hc. apply Contains_spec in Hc.
    rewrite before_dash_no_dash in Hc. discriminate.
  - intros ->. reflexivity.
  - intros Hne Hlen.
    destruct (Rest.GitCommit w) eqn:E; [contradiction|]. cbn [is_empty].
    destruct (7 <? _) eqn:Hcmp; [|reflexivity].
    apply Z.ltb_lt in Hcmp. lia.
  - destruct (Rest.GitCommit w) eqn:E; [cbn in H; lia|]. cbn [is_empty].
    destruct (7 <? _) eqn:Hcmp; [|apply Z.ltb_ge in Hcmp; lia].
    apply take_length. lia.
  - destruct (Rest.GitCommit w) eqn:E; [cbn in H; lia|]. cbn [is_empty].
    destruct (7 <? _) eqn:Hcmp; [|apply Z.ltb_ge in Hcmp; lia].
    apply take_prefix.
Qed.

End UserAgentFacts.

(** The stamps of a build and what they give. *)
Lemma DefaultUserAgent_format_witness :
  Rest.GitVersion Demo.world = "v1.6.2-12-g0a1b2c3"
  /\ Rest.GitCommit Demo.world = "0a1b2c3d4e5f60718293"
  /\ Rest.Args0 Demo.world = "/usr/local/bin/iamctl"
  /\ Rest.DefaultUserAgent Demo.world
     = "iamctl/v1.6.2 (linux/amd64) iam/0a1b2c3".
Proof.
  destruct (DefaultUserAgent_format Demo.world)
    as (command & version & commit & H & _).
  repeat split.
Defined.

Section ConfigLoading.
Import GoLib.
Variable cw : Clientcmd.World.

(** [Load] on an empty byte slice: the default configuration, with an
    empty server and an empty user, and no error. *)
Lemma Load_empty :
  Clientcmd.Load cw [] = (Some Clientcmd.NewConfig, None)
  /\ Clientcmd.cAuthInfo Clientcmd.NewConfig = Some Clientcmd.empty_AuthInfo
  /\ Clientcmd.cServer Clientcmd.NewConfig = Some Clientcmd.empty_Server.
Proof. repeat split. Qed.

(** [Load] on bytes that the decoder rejects: nil and the decoder's
    error. *)
Lemma Load_unmarshal_error (data : bytes) (cfg : Clientcmd.Config)
  (e : error) :
  data <> [] ->
  Clientcmd.yaml_Unmarshal cw data Clientcmd.NewConfig = (cfg, Some e) ->
  Clientcmd.Load cw data = (None, Some e).
Proof.
  intros Hd Hy. unfold Clientcmd.Load.
  destruct data; [contradiction|]. rewrite Hy. reflexivity.
Qed.

(** [Load] never returns both nil and no error. *)
Lemma Load_some_or_error (data : bytes) :
  (exists cfg, Clientcmd.Load cw data = (Some cfg, None))
  \/ (exists e, Clientcmd.Load cw data = (None, Some e)).
Proof.
  unfold Clientcmd.Load. destruct data; [left; eauto|].
  destruct (Clientcmd.yaml_Unmarshal cw _ _) as [cfg [e|]]; eauto.
Qed.

(** What [LoadFromFile] does, case by case: an error of the read or of
    the load is returned; a loaded configuration whose two pointers are
    set is returned with both origins set to the file name; a loaded
    configuration with a nil pointer makes the call panic. *)
Lemma LoadFromFile_cases (filename : string) :
  match Clientcmd.FS_ReadFile cw filename with
  | (_, Some e) =>
      Clientcmd.LoadFromFile cw filename = Returned (None, Some e)
  | (data, None) =>
      match Clientcmd.Load cw data with
      | (_, Some e) =>
          Clientcmd.LoadFromFile cw filename = Returned (None, Some e)
      | (Some cfg, None) =>
          match Clientcmd.cAuthInfo cfg, Clientcmd.cServer cfg with
          | Some ai, Some sv =>
              Clientcmd.LoadFromFile cw filename
              = Returned
                  (Some {| Clientcmd.APIVersion := Clientcmd.APIVersion cfg;
                           Clientcmd.cAuthInfo :=
                             Some (Clientcmd.set_ai_origin ai filename);
                           Clientcmd.cServer :=
                             Some (Clientcmd.set_srv_origin sv filename) |},
                   None)
          | _, _ => Clientcmd.LoadFromFile cw filename = Panicked
          end
      | (None, None) => Clientcmd.LoadFromFile cw filename = Panicked
      end
  end.
Proof.
  unfold Clientcmd.LoadFromFile.
  destruct (Clientcmd.FS_ReadFile cw filename) as [data [e|]];
    [reflexivity|].
  destruct (Clientcmd.Load cw data) as [[cfg|] [e|]]; try reflexivity.
  destruct (Clientcmd.cAuthInfo cfg), (Clientcmd.cServer cfg); reflexivity.
Qed.

(** A document that the decoder accepts and that leaves the user pointer
    nil makes [LoadFromFile] panic: it returns neither an error nor a
    configuration. *)
Lemma LoadFromFile_panics_on_nil_user (filename : string) (data : bytes)
  (cfg : Clientcmd.Config) :
  Clientcmd.FS_ReadFile cw filename = (data, None) ->
  data <> [] ->
  Clientcmd.yaml_Unmarshal cw data Clientcmd.NewConfig = (cfg, None) ->
  Clientcmd.cAuthInfo cfg = None ->
  Clientcmd.LoadFromFile cw filename = Panicked.
Proof.
  intros Hr Hd Hy Hnil.
  pose proof (LoadFromFile_cases filename) as H. rewrite Hr in H.
  unfold Clientcmd.Load in H. destruct data; [contradiction|].
  rewrite Hy, Hnil in H. exact H.
Qed.

End ConfigLoading.

(** C6 at a failing input: the file [iam.yaml] holds the document
    [user: null]; it is read and decoded without an error, the user pointer
    of the decoded configuration is nil, and [LoadFromFile] panics where
    the claim has it return the loaded configuration. *)
Lemma LoadFromFile_null_user_panics :
  Clientcmd.FS_ReadFile Demo.cworld "iam.yaml"
  = (Demo.null_user_document, None)
  /\ (exists cfg,
        Clientcmd.Load Demo.cworld Demo.null_user_document = (Some cfg, None)
        /\ Clientcmd.cAuthInfo cfg = None)
  /\ Clientcmd.LoadFromFile Demo.cworld "iam.yaml" = Panicked.
Proof.
  split; [reflexivity|]. split; [eexists; split; reflexivity|].
  reflexivity.
Qed.

Section ErrorLatch.
Import GoLib.
Variable w : Rest.World.

Lemma call_latched (b : Chain.BuilderCall) (r : Rest.Request) (e : error) :
  Rest.err r = Some e -> Chain.call w b r = Returned r.
Proof.
  intros He.
  destruct b; cbn [Chain.call];
    unfold Rest.Prefix, Rest.Suffix, Rest.Resource, Rest.SubResource,
      Rest.Name, Rest.AbsPath, Rest.RequestURI, Rest.Param,
      Rest.VersionedParams, Rest.Timeout;
    rewrite He; reflexivity.
Qed.

(** Once an error is recorded, any sequence of builder calls returns the
    request as it was: the first error is latched. *)
Lemma first_error_latched (bs : list Chain.BuilderCall) (r : Rest.Request)
  (e : error) :
  Rest.err r = Some e -> Chain.calls w bs r = Returned r.
Proof.
  intros He. induction bs as [|b bs IH]; cbn [Chain.calls]; [reflexivity|].
  rewrite (call_latched b r e He). exact IH.
Qed.

End ErrorLatch.

(** C10 at a failing input: [Delete] with an empty name. [Name] records
    the error, the later calls leave the request alone, and [Do] sends it
    all the same: a DELETE on the collection [/v1/users], whose answer,
    200, is what [Error] gives; the recorded error is never observed. *)
Lemma Delete_with_empty_name_is_sent :
  let opts := {| Apiserver.OptionsData := "" |} in
  let r := Apiserver.Delete_request Demo.world Demo.basic_client
             Apiserver.Users "" opts in
  Rest.err r = Some ErrNameEmpty
  /\ Rest.agMethod (Rest.Do_agent Demo.world r) = "DELETE"
  /\ Rest.agUrl (Rest.Do_agent Demo.world r) = "http://127.0.0.1:8080/v1/users"
  /\ Apiserver.Delete Demo.world Demo.basic_client Apiserver.Users "" opts
     = Returned None.
Proof. repeat split. Qed.



(** A fresh request takes the name [alice], refuses [a/b] with the
    message of the validation, and refuses the empty name. *)
Lemma Name_records_error_on_fresh_request_witness :
  let r := Rest.Resource "users" (Rest.Get Demo.world Demo.basic_client) in
  Rest.err r = None
  /\ Rest.resourceName (Rest.Name "alice" r) = "alice"
  /\ Rest.err (Rest.Name "a/b" r) <> None
  /\ Rest.err (Rest.Name "a/b" r)
     = Some (ErrInvalidName "a/b" ["may not contain '/'"])
  /\ Rest.err (Rest.Name "" r) <> None.
Proof.
  intros r.
  assert (He : Rest.err r = None) by reflexivity.
  split; [exact He|]. split; [|split; [|split]].
  - apply (Name_records_error_on_fresh_request "alice" r);
      [exact He | reflexivity].
  - apply (Name_records_error_on_fresh_request "a/b" r); [exact He|].
    right. right. discriminate.
  - destruct (Name_records_error_on_fresh_request "a/b" r)
      as (_ & _ & _ & _ & Hpayload & _).
    rewrite Hpayload;
      [reflexivity | exact He | discriminate | reflexivity | discriminate].
  - apply (Name_records_error_on_fresh_request "" r); [exact He|].
    left. reflexivity.
Defined.

(** C4, as stated, fails on a request that already has an error: the name
    [bob] is not empty, no name was set and [bob] passes the validation,
    yet the request has an error after [Name] and does not hold the name;
    and [Name] with the empty name records nothing, the error stays the
    one of request creation. *)
Lemma Name_on_failed_request_keeps_nothing :
  let r := Rest.Resource "users"
             (Rest.Get Demo.world Demo.conflicting_client) in
  Rest.IsValidPathSegmentName "bob" = []
  /\ Rest.resourceName r = ""
  /\ Rest.err (Rest.Name "bob" r) <> None
  /\ Rest.resourceName (Rest.Name "bob" r) <> "bob"
  /\ Rest.err (Rest.Name "" r) = Some ErrAuthMethods.
Proof. repeat split; discriminate. Qed.
